(** * FieldNBalance: TestGraphs/MakeConfigs/Moisture.py

    A shallow embedding of the configuration converter script.  The script
    is a straight line of library calls, so the development has three
    layers:

    - [Py]: the Python built-ins the script uses ([str.split], the [in]
      test on strings, [==] on objects, [str] of an integer);
    - [Pandas]: the tabular operations ([read_excel] on an already opened
      worksheet, [set_index], [transpose], [to_csv]);
    - [Script]: the statements of Moisture.py themselves, as computations
      in a state-and-exception monad over the module globals, the process
      environment and the file system.

    Scope of the library layer.  Worksheet cells are blank, whole numbers
    (within 64 bits) or text.  Column labels are what the spreadsheet
    parser hands to [usecols]: it has already named blank header cells
    [Unnamed: <position>] and told equal labels apart; a label is a text
    or, when the header cell holds a number, that number.  The reader
    stops after the rows asked for and drops the entirely blank rows at
    the end of what it has read.  The per-column retyping that pandas
    performs on a column made only of numerals or only of truth values,
    and non-integral numbers, are outside the model: it says nothing of
    how such columns are printed.  Text files are written with the [csv]
    module's default dialect: comma, double quote, minimal quoting, and
    the line terminator of the host. *)

From Stdlib Require Import ZArith Lia Ascii String DecimalString.
From stdpp Require Import base option list strings gmap fin_maps.

(** ** Python built-ins *)

Module Py.

(** [sep.join(parts)]. *)
Fixpoint str_join (sep : string) (parts : list string) : string :=
  match parts with
  | [] => EmptyString
  | [p] => p
  | p :: rest => p +:+ sep +:+ str_join sep rest
  end.

(** [s.split(c)] for a separator of one character: every occurrence
    cuts, so the result always has one more fragment than there are
    separators. *)
Fixpoint str_split (c : ascii) (s : string) : list string :=
  match s with
  | EmptyString => [EmptyString]
  | String a s' =>
      if Ascii.eqb a c then EmptyString :: str_split c s'
      else match str_split c s' with
           | [] => [String a EmptyString]
           | w :: ws => String a w :: ws
           end
  end.

(** [needle in hay] on strings: the substring test. *)
Fixpoint str_contains (needle hay : string) : bool :=
  String.prefix needle hay ||
  match hay with
  | EmptyString => false
  | String _ hay' => str_contains needle hay'
  end.

(** [c in s] for one character. *)
Fixpoint has_char (c : ascii) (s : string) : bool :=
  match s with
  | EmptyString => false
  | String a s' => Ascii.eqb a c || has_char c s'
  end.

(** [str(z)] for an integer. *)
Definition str_of_int (z : Z) : string :=
  NilZero.string_of_int (Z.to_int z).

(** [str(n)] for a natural number. *)
Definition str_of_nat (n : nat) : string := str_of_int (Z.of_nat n).

End Py.

(** ** [os.path] on a POSIX host

    The script only calls [os.path.join] and [os.path.abspath]; the script
    model below is parametric in both, and these are the instances used to
    run it on concrete inputs. *)

Module OsPath.

Fixpoint str_endswith_char (c : ascii) (s : string) : bool :=
  match s with
  | EmptyString => false
  | String a EmptyString => Ascii.eqb a c
  | String _ s' => str_endswith_char c s'
  end.

(** [posixpath.join(a, *p)]: a component that starts with the separator
    restarts the path, otherwise it is appended, with a separator unless
    the path so far is empty or already ends with one. *)
Fixpoint posix_join (a : string) (p : list string) : string :=
  match p with
  | [] => a
  | b :: rest =>
      let path :=
        if String.prefix "/" b then b
        else if String.eqb a EmptyString || str_endswith_char "/" a
             then a +:+ b
             else a +:+ "/" +:+ b in
      posix_join path rest
  end.

(** [posixpath.abspath(p)] in the working directory [cwd], for a [cwd]
    that is absolute and normal and a [p] that is a plain file name:
    normalising leaves the joined path as it is. *)
Definition posix_abspath (cwd p : string) : string := posix_join cwd [p].

End OsPath.

(** ** The tabular layer *)

Module Pandas.

(** A worksheet cell as the workbook stores it. *)
Inductive xl_cell :=
| XBlank
| XNum (z : Z)
| XText (s : string).

(** A worksheet whose header cells are all text: the labels of the
    header row and the data rows under it, in order. *)
Record Sheet := {
  header : list string;
  rows : list (list xl_cell)
}.

(** A column label in general: the text of the header cell, or the number
    it holds. *)
Inductive label :=
| LText (s : string)
| LNum (z : Z).

#[global] Instance label_eq_dec : EqDecision label.
Proof. solve_decision. Defined.

(** A value held by a frame. *)
Inductive cell :=
| CInt (z : Z)
| CStr (s : string)
| CNaN.

#[global] Instance cell_eq_dec : EqDecision cell.
Proof. solve_decision. Defined.

(** A frame: both axes carry labels and an optional name; [values] is
    row-major, one list per entry of [index]. *)
Record DataFrame := {
  index_name : option string;
  index : list cell;
  columns_name : option string;
  columns : list cell;
  values : list (list cell)
}.

(** [shape]: every row is as wide as [columns], and there is one row per
    index entry. *)
Definition rectangular (df : DataFrame) : Prop :=
  length (values df) = length (index df)
  /\ Forall (fun r => length r = length (columns df)) (values df).

(** [pd.isna] on one value, and frames free of it. *)
Definition is_nan (c : cell) : bool :=
  match c with CNaN => true | _ => false end.

Definition no_nan (df : DataFrame) : Prop :=
  Forall (fun c => is_nan c = false) (index df)
  /\ Forall (fun c => is_nan c = false) (columns df)
  /\ Forall (Forall (fun c => is_nan c = false)) (values df).

(** *** Reading *)

(** The reader hands a blank cell on as the empty string. *)
Definition convert_cell (c : xl_cell) : cell :=
  match c with
  | XBlank => CStr EmptyString
  | XNum z => CInt z
  | XText s => CStr s
  end.

(** The strings [read_excel] turns into NaN unless told otherwise. *)
Definition STR_NA_VALUES : list string :=
  [ ""; "#N/A"; "#N/A N/A"; "#NA"; "-1.#IND"; "-1.#QNAN"; "-NaN"; "-nan";
    "1.#IND"; "1.#QNAN"; "<NA>"; "N/A"; "NA"; "NULL"; "NaN"; "None";
    "n/a"; "nan"; "null" ].

Definition na_values (keep_default_na : bool) : list string :=
  if keep_default_na then STR_NA_VALUES else [].

Definition na_filter (na : list string) (c : cell) : cell :=
  match c with
  | CStr s => if bool_decide (s ∈ na) then CNaN else c
  | _ => c
  end.

(** Keep the positions of [xs] that [mask] marks; a row shorter than the
    header is padded with [dflt], as the reader pads with blanks. *)
Fixpoint select {A} (mask : list bool) (dflt : A) (xs : list A) : list A :=
  match mask with
  | [] => []
  | b :: mask' =>
      let x := match xs with [] => dflt | x :: _ => x end in
      let xs' := match xs with [] => [] | _ :: t => t end in
      if b then x :: select mask' dflt xs' else select mask' dflt xs'
  end.

Definition range_index (n : nat) : list cell :=
  map (fun i => CInt (Z.of_nat i)) (seq 0 n).

(** A cell the reader hands on as the empty string. *)
Definition is_blank (c : xl_cell) : bool :=
  match c with
  | XBlank => true
  | XText EmptyString => true
  | _ => false
  end.

(** The reader drops the rows after the last one that holds anything. *)
Fixpoint drop_blank_tail (rws : list (list xl_cell)) : list (list xl_cell) :=
  match rws with
  | [] => []
  | r :: rest =>
      match drop_blank_tail rest with
      | [] => if forallb is_blank r then [] else [r]
      | kept => r :: kept
      end
  end.

(** What the reader hands to the parser when asked for [nrows] data rows:
    it stops after that many, then drops the blank rows at the end. *)
Definition get_sheet_data (nrows : nat) (sh : Sheet) : Sheet :=
  {| header := header sh;
     rows := drop_blank_tail (take nrows (rows sh)) |}.

Definition label_cell (l : label) : cell :=
  match l with
  | LText s => CStr s
  | LNum z => CInt z
  end.

(** The frame the parser builds from the columns [mask] marks. *)
Definition frame_of_mask (mask : list bool) (labels : list label)
    (rws : list (list xl_cell)) (keep_default_na : bool) : DataFrame :=
  let na := na_values keep_default_na in
  {| index_name := None;
     index := range_index (length rws);
     columns_name := None;
     columns := map label_cell (select mask (LText EmptyString) labels);
     values :=
       map (fun r => map (fun c => na_filter na (convert_cell c))
                         (select mask XBlank r)) rws |}.

(** A callable [usecols] is called on every label in turn; [None] stands
    for the exception it raises on one of them. *)
Fixpoint eval_usecols (usecols : label -> option bool) (labels : list label)
    : option (list bool) :=
  match labels with
  | [] => Some []
  | x :: rest =>
      match usecols x with
      | None => None
      | Some b =>
          match eval_usecols usecols rest with
          | None => None
          | Some mask => Some (b :: mask)
          end
      end
  end.

(** [pd.read_excel(sheet, nrows=, usecols=<callable>, keep_default_na=)]
    on an opened worksheet with any labels; [None] when [usecols]
    raises. *)
Definition read_labelled (labels : list label) (rws : list (list xl_cell))
    (nrows : nat) (usecols : label -> option bool) (keep_default_na : bool)
    : option DataFrame :=
  match eval_usecols usecols labels with
  | None => None
  | Some mask =>
      Some (frame_of_mask mask labels (drop_blank_tail (take nrows rws))
              keep_default_na)
  end.

(** The parser on the rows it is handed, for a worksheet whose labels
    are all text and a test that is defined on every text. *)
Definition parse_sheet (sh : Sheet) (usecols : string -> bool)
    (keep_default_na : bool) : DataFrame :=
  frame_of_mask (map usecols (header sh)) (map LText (header sh)) (rows sh)
    keep_default_na.

(** [pd.read_excel] on such a worksheet: the reader, then the parser. *)
Definition read_excel (sh : Sheet) (nrows : nat) (usecols : string -> bool)
    (keep_default_na : bool) : DataFrame :=
  parse_sheet (get_sheet_data nrows sh) usecols keep_default_na.

(** The worksheet cut down to its first [n] rows, and to the columns a
    test accepts. *)
Definition first_rows (n : nat) (sh : Sheet) : Sheet :=
  {| header := header sh; rows := take n (rows sh) |}.

Definition accepted_columns (usecols : string -> bool) (sh : Sheet) : Sheet :=
  {| header := filter (fun x => usecols x = true) (header sh);
     rows := map (select (map usecols (header sh)) XBlank) (rows sh) |}.

(** *** Indexing *)

(** [df.set_index(key)] with the defaults [drop=True, append=False]:
    [None] stands for the [KeyError] pandas raises when no column has
    that label. *)
Definition set_index (key : string) (df : DataFrame) : option DataFrame :=
  match list_find (fun c => c = CStr key) (columns df) with
  | None => None
  | Some (k, _) =>
      Some {| index_name := Some key;
              index := map (fun r => default CNaN (r !! k)) (values df);
              columns_name := columns_name df;
              columns := delete k (columns df);
              values := map (delete k) (values df) |}
  end.

(** *** Transposing *)

Fixpoint transpose_values (ncols : nat) (rws : list (list cell))
    : list (list cell) :=
  match rws with
  | [] => replicate ncols []
  | r :: rest => zip_with cons r (transpose_values ncols rest)
  end.

(** [df.transpose()]: the axes, with their names, change places. *)
Definition transpose (df : DataFrame) : DataFrame :=
  {| index_name := columns_name df;
     index := columns df;
     columns_name := index_name df;
     columns := index df;
     values := transpose_values (length (columns df)) (values df) |}.

(** *** Writing delimited text *)

Definition dquote : ascii := ascii_of_nat 34.
Definition LF : ascii := ascii_of_nat 10.
Definition CR : ascii := ascii_of_nat 13.

Definition cell_str (na_rep : string) (c : cell) : string :=
  match c with
  | CInt z => Py.str_of_int z
  | CStr s => s
  | CNaN => na_rep
  end.

(** The first field of the header row: the name of the row axis, or
    nothing when it has none. *)
Definition index_label (df : DataFrame) : string :=
  default EmptyString (index_name df).

(** The records [to_csv(header=True)] writes, with the default
    [index=True] and [na_rep='']: the header record, then one record per
    row, each led by its index entry. *)
Definition csv_records (df : DataFrame) : list (list string) :=
  (index_label df :: map (cell_str EmptyString) (columns df))
  :: zip_with (fun i r => cell_str EmptyString i :: map (cell_str EmptyString) r)
       (index df) (values df).

(** Some character of [s] occurs in [t]. *)
Fixpoint shares_char (s t : string) : bool :=
  match s with
  | EmptyString => false
  | String a s' => Py.has_char a t || shares_char s' t
  end.

(** The [csv] writer with minimal quoting: a field is quoted when it
    holds the delimiter, the quote character or a character of the line
    terminator. *)
Definition needs_quote (linesep s : string) : bool :=
  Py.has_char "," s || Py.has_char dquote s || shares_char s linesep.

Fixpoint double_quotes (s : string) : string :=
  match s with
  | EmptyString => EmptyString
  | String a s' =>
      if Ascii.eqb a dquote then String a (String a (double_quotes s'))
      else String a (double_quotes s')
  end.

Definition csv_field (linesep s : string) : string :=
  if needs_quote linesep s
  then String dquote (double_quotes s +:+ String dquote EmptyString)
  else s.

(** A record made of one empty field is written as a pair of quotes, so
    that it is not mistaken for an empty line. *)
Definition csv_row (linesep : string) (fields : list string) : string :=
  match fields with
  | [EmptyString] => String dquote (String dquote EmptyString)
  | _ => Py.str_join "," (map (csv_field linesep) fields)
  end.

Fixpoint csv_text (linesep : string) (records : list (list string)) : string :=
  match records with
  | [] => EmptyString
  | r :: rest => csv_row linesep r +:+ linesep +:+ csv_text linesep rest
  end.

Definition to_csv (linesep : string) (df : DataFrame) : string :=
  csv_text linesep (csv_records df).

End Pandas.

Import Pandas.

(** ** The script *)

(** The host the interpreter runs on: how paths are joined and made
    absolute, and the line terminator text files get. *)
Class Host := {
  os_path_join : string -> list string -> string;
  os_path_abspath : string -> string;
  os_linesep : string
}.

(** The snapshot format.  It is opaque to the script, which only calls the
    encoder; the decoder is what a later reader of the file would call. *)
Class Pickle := {
  Blob : Type;
  pickle_dumps : DataFrame -> Blob;
  pickle_loads : Blob -> option DataFrame
}.

(** Line 36, [lambda x: 'Unnamed' not in x], on a text label. *)
Definition unnamed_not_in (x : string) : bool :=
  negb (Py.str_contains "Unnamed" x).

(** Line 36 on any label: the [in] test needs a container on its right,
    so a label that is a number raises [TypeError], written [None]. *)
Definition usecols_lambda (x : label) : option bool :=
  match x with
  | LText s => Some (unnamed_not_in s)
  | LNum _ => None
  end.

(** Python objects the script binds to names or compares. *)
Inductive value :=
| VNone
| VBool (b : bool)
| VInt (z : Z)
| VStr (s : string)
| VList (l : list string)
| VFrame (df : DataFrame).

Inductive exn :=
| NameError (name : string)
| KeyError (key : string)
| TypeError
| ValueError
| FileNotFoundError (p : string)
| PermissionError (p : string).

(** What a run does to the file system, in order. *)
Inductive event :=
| EvOpenRead (p : string)
| EvWrite (p : string).

Inductive outcome (A : Type) :=
| Return (a : A)
| Raise (e : exn).
Arguments Return {A} a.
Arguments Raise {A} e.

(** [a == b].  Objects of unrelated types are never equal; [bool] is a
    subtype of [int], so [True == 1].  The script compares no frames. *)
Definition py_eq (a b : value) : bool :=
  match a, b with
  | VNone, VNone => true
  | VBool x, VBool y => Bool.eqb x y
  | VBool x, VInt z | VInt z, VBool x => Z.eqb z (if x then 1 else 0)
  | VInt x, VInt y => Z.eqb x y
  | VStr x, VStr y => String.eqb x y
  | VList x, VList y => bool_decide (x = y)
  | _, _ => false
  end.

(** Lines 25 to 30 read as a function of the fragments: the root grows by
    each fragment and a backslash until the project name is met. *)
Fixpoint walk_root (root : string) (rootfrags : list string) : string :=
  match rootfrags with
  | [] => root
  | d :: rest =>
      if py_eq (VStr d) (VStr "FieldNBalance") then root
      else walk_root (root +:+ (d +:+ "\")) rest
  end.

Section Script.

Context {host : Host} {pk : Pickle}.

(** What a path can hold.  A workbook is either [Xlsx], when every header
    cell of its worksheet is text, or [XlsxNumberHeaded]: the text labels
    before the first header cell that is not a text, the number in that
    cell, the labels after it, and the data rows. *)
Inductive file :=
| Xlsx (sh : Sheet)
| XlsxNumberHeaded (before : list string) (z : Z) (after : list label)
    (rws : list (list xl_cell))
| Text (s : string)
| Pickled (b : Blob).

(** The labels and the data rows of a workbook. *)
Definition worksheet (f : file)
    : option (list label * list (list xl_cell)) :=
  match f with
  | Xlsx sh => Some (map LText (header sh), rows sh)
  | XlsxNumberHeaded before z after rws =>
      Some (map LText before ++ LNum z :: after, rws)
  | _ => None
  end.

Record state := {
  globals : gmap string value;
  environ : gmap string string;
  files : gmap string file;
  writable : string -> bool;
  trace : list event
}.

Definition with_globals (g : gmap string value) (st : state) : state :=
  {| globals := g; environ := environ st; files := files st;
     writable := writable st; trace := trace st |}.

Definition log (e : event) (st : state) : state :=
  {| globals := globals st; environ := environ st; files := files st;
     writable := writable st; trace := trace st ++ [e] |}.

Definition store (p : string) (f : file) (st : state) : state :=
  {| globals := globals st; environ := environ st;
     files := <[p := f]> (files st);
     writable := writable st; trace := trace st ++ [EvWrite p] |}.

(** A fresh interpreter: no name bound, nothing done yet. *)
Definition fresh (env : gmap string string) (fs : gmap string file)
    (w : string -> bool) : state :=
  {| globals := ∅; environ := env; files := fs; writable := w; trace := [] |}.

(** *** Computations that may raise *)

Definition M (A : Type) : Type := state -> outcome A * state.

Definition ret {A} (a : A) : M A := fun st => (Return a, st).

Definition raise {A} (e : exn) : M A := fun st => (Raise e, st).

Definition bind {A B} (m : M A) (k : A -> M B) : M B :=
  fun st =>
    match m st with
    | (Return a, st') => k a st'
    | (Raise e, st') => (Raise e, st')
    end.

Notation "'let!' x ':=' m 'in' k" := (bind m (fun x => k))
  (at level 10, x name, m at level 100, k at level 200).
Notation "m1 '>>' m2" := (bind m1 (fun _ => m2))
  (at level 90, right associativity).

(** *** Names *)

Definition get_var (x : string) : M value :=
  fun st =>
    match globals st !! x with
    | Some v => (Return v, st)
    | None => (Raise (NameError x), st)
    end.

Definition set_var (x : string) (v : value) : M unit :=
  fun st => (Return tt, with_globals (<[x := v]> (globals st)) st).

Definition as_str (v : value) : M string :=
  match v with VStr s => ret s | _ => raise TypeError end.

Definition as_list (v : value) : M (list string) :=
  match v with VList l => ret l | _ => raise TypeError end.

Definition as_frame (v : value) : M DataFrame :=
  match v with VFrame df => ret df | _ => raise TypeError end.

Definition get_str (x : string) : M string :=
  let! v := get_var x in as_str v.

Definition get_list (x : string) : M (list string) :=
  let! v := get_var x in as_list v.

Definition get_frame (x : string) : M DataFrame :=
  let! v := get_var x in as_frame v.

(** *** The environment and the file system *)

(** [os.getenv(k)]: the text of the variable, or [None]. *)
Definition os_getenv (k : string) : M value :=
  fun st =>
    (Return (match environ st !! k with Some s => VStr s | None => VNone end),
     st).

(** [os.environ[k]]. *)
Definition os_environ_getitem (k : string) : M value :=
  fun st =>
    match environ st !! k with
    | Some s => (Return (VStr s), st)
    | None => (Raise (KeyError k), st)
    end.

Definition pd_read_excel (p : string) (nrows : nat)
    (usecols : label -> option bool) (keep_default_na : bool) : M DataFrame :=
  fun st =>
    let st' := log (EvOpenRead p) st in
    match files st !! p with
    | Some f =>
        match worksheet f with
        | Some (labels, rws) =>
            match read_labelled labels rws nrows usecols keep_default_na with
            | Some df => (Return df, st')
            | None => (Raise TypeError, st')
            end
        | None => (Raise ValueError, st')
        end
    | None => (Raise (FileNotFoundError p), st')
    end.

Definition write_file (p : string) (f : file) : M unit :=
  fun st =>
    if writable st p then (Return tt, store p f st)
    else (Raise (PermissionError p), st).

Definition df_to_csv (df : DataFrame) (p : string) : M unit :=
  write_file p (Text (to_csv os_linesep df)).

Definition df_to_pickle (df : DataFrame) (p : string) : M unit :=
  write_file p (Pickled (pickle_dumps df)).

(** *** Lines 19 to 31: where the spreadsheet lives *)

(** Line 19: [os.getenv("GITHUB_ACTIONS") == True]. *)
Definition ci_test : M bool :=
  let! v := os_getenv "GITHUB_ACTIONS" in
  ret (py_eq v (VBool true)).

(** Lines 20 to 22. *)
Definition ci_branch : M unit :=
  let! ws := os_environ_getitem "GITHUB_WORKSPACE" in
  set_var "root" ws >>
  let! root := get_str "root" in
  set_var "inPath"
    (VStr (os_path_join root
             ["TestComponents"; "TestSets"; "Moisture"; "Outputs"])) >>
  let! root := get_str "root" in
  set_var "outPath" (VStr (os_path_join root ["TestGraphs"; "Outputs"])).

(** Lines 26 to 30: the loop over the fragments, with its [break]. *)
Fixpoint for_rootfrags (rootfrags : list string) : M unit :=
  match rootfrags with
  | [] => ret tt
  | d :: rest =>
      set_var "d" (VStr d) >>
      if py_eq (VStr d) (VStr "FieldNBalance") then ret tt
      else
        (let! root := get_str "root" in
         set_var "root" (VStr (root +:+ (d +:+ "\")))) >>
        for_rootfrags rest
  end.

(** Lines 24 to 31. *)
Definition local_branch : M unit :=
  set_var "rootfrags"
    (VList (Py.str_split "\" (os_path_abspath "WS2.ipynb"))) >>
  set_var "root" (VStr EmptyString) >>
  let! rootfrags := get_list "rootfrags" in
  for_rootfrags rootfrags >>
  let! root := get_str "root" in
  set_var "path"
    (VStr (os_path_join root
             ["FieldNBalance"; "TestComponents"; "TestSets"; "Moisture"])).

Definition resolver : M unit :=
  let! ci := ci_test in
  if ci then ci_branch else local_branch.

(** *** Lines 33 to 44: load, index, transpose, write *)

(** Lines 33 to 37. *)
Definition load : M unit :=
  let! path := get_str "path" in
  let! df :=
    pd_read_excel (os_path_join path ["FieldConfigs.xlsx"]) 45
      usecols_lambda false in
  set_var "Configs" (VFrame df).

(** Line 39.  [inplace=True] changes the one frame [Configs] names;
    nothing else refers to it yet, so rebinding the name is the same. *)
Definition index_by_name : M unit :=
  let! df := get_frame "Configs" in
  match set_index "Name" df with
  | Some df' => set_var "Configs" (VFrame df')
  | None => raise (KeyError "Name")
  end.

(** Line 41. *)
Definition reshape : M unit :=
  let! df := get_frame "Configs" in
  set_var "CSConfigs" (VFrame (transpose df)).

(** Line 42. *)
Definition write_csv : M unit :=
  let! t := get_frame "CSConfigs" in
  let! path := get_str "path" in
  df_to_csv t (os_path_join path ["FieldConfigs.csv"]).

(** Line 44. *)
Definition write_pickle : M unit :=
  let! df := get_frame "Configs" in
  let! path := get_str "path" in
  df_to_pickle df (os_path_join path ["FieldConfigs.pkl"]).

Definition pipeline : M unit :=
  load >> index_by_name >> reshape >> write_csv >> write_pickle.

Definition script : M unit := resolver >> pipeline.

(** One run of the script in a fresh interpreter. *)
Definition run (env : gmap string string) (fs : gmap string file)
    (w : string -> bool) : outcome unit * state :=
  script (fresh env fs w).

(** The statements that would run were the test on line 19 to succeed:
    lines 20 to 22, then lines 33 to 44. *)
Definition script_ci : M unit := ci_branch >> pipeline.

(** *** The places a run touches

    What lines 24 to 31 bind [root] and [path] to, and the three file
    names lines 34, 42 and 44 build from [path]. *)

Definition notebook_fragments : list string :=
  Py.str_split "\" (os_path_abspath "WS2.ipynb").

Definition local_root : string := walk_root EmptyString notebook_fragments.

Definition local_path : string :=
  os_path_join local_root
    ["FieldNBalance"; "TestComponents"; "TestSets"; "Moisture"].

Definition xlsx_file : string := os_path_join local_path ["FieldConfigs.xlsx"].
Definition csv_file : string := os_path_join local_path ["FieldConfigs.csv"].
Definition pkl_file : string := os_path_join local_path ["FieldConfigs.pkl"].

(** The names the resolver leaves bound in a fresh interpreter. *)
Definition resolved (g : gmap string value) : Prop :=
  g !! "path" = Some (VStr local_path)
  /\ g !! "root" = Some (VStr local_root)
  /\ g !! "inPath" = None
  /\ g !! "outPath" = None
  /\ g !! "Configs" = None
  /\ g !! "CSConfigs" = None.

(** The table line 39 leaves in [Configs] for a worksheet, if it has a
    [Name] column. *)
Definition config_table (sh : Sheet) : option DataFrame :=
  set_index "Name" (read_excel sh 45 unnamed_not_in false).

End Script.

(** ** Hosts and inputs to run the script on *)

(** A POSIX host whose working directory is [cwd]. *)
Definition posix_host (cwd : string) : Host :=
  {| os_path_join := OsPath.posix_join;
     os_path_abspath := OsPath.posix_abspath cwd;
     os_linesep := String LF EmptyString |}.

(** A snapshot format that keeps the frame as it is. *)
Definition frame_pickle : Pickle :=
  {| Blob := DataFrame; pickle_dumps := fun df => df; pickle_loads := Some |}.

(** The worksheet of the scenario: names A and B, a depth of 10 and a
    blank. *)
Definition sheet_AB : Sheet :=
  {| header := ["Name"; "Depth"];
     rows := [[XText "A"; XNum 10]; [XText "B"; XBlank]] |}.

(** The same with two more columns, one labelled by hand and one that the
    parser labelled because its header cell was blank. *)
Definition sheet_extra : Sheet :=
  {| header := ["Name"; "UnnamedExtra"; "Depth"; "Unnamed: 3"];
     rows := [[XText "A"; XText "x"; XNum 10; XNum 1];
              [XText "B"; XNum 7; XBlank; XBlank]] |}.

(** A worksheet without a [Name] column. *)
Definition sheet_no_name : Sheet :=
  {| header := ["Site"; "Depth"];
     rows := [[XText "A"; XNum 10]; [XText "B"; XBlank]] |}.


(** A worksheet of [n] rows, named 1 to [n]. *)
Definition sheet_of_rows (n : nat) : Sheet :=
  {| header := ["Name"; "Depth"];
     rows := map (fun i => [XText (Py.str_of_nat i); XNum (Z.of_nat i)])
               (seq 1 n) |}.

(** A worksheet of 45 rows whose last row is entirely blank. *)
Definition sheet_45_blank_last : Sheet :=
  {| header := ["Name"; "Depth"];
     rows := rows (sheet_of_rows 44) ++ [[XBlank; XBlank]] |}.

(** A developer machine: the notebook directory is [/home/u/repo], where
    no part of the path is cut off by a backslash. *)
Definition repo_host : Host := posix_host "/home/u/repo".

Definition moisture_dir : string :=
  "/home/u/repo/WS2.ipynb\/FieldNBalance/TestComponents/TestSets/Moisture".

(** A file system that holds one worksheet where [repo_host] looks for
    it. *)
Definition fs_with (sh : Sheet) : gmap string (@file frame_pickle) :=
  {[ moisture_dir +:+ "/FieldConfigs.xlsx" := Xlsx sh ]}.

(** A file system that holds a workbook without [Name] whose second
    header cell is the number 2020. *)
Definition fs_year_headed : gmap string (@file frame_pickle) :=
  {[ moisture_dir +:+ "/FieldConfigs.xlsx" :=
       XlsxNumberHeaded ["Site"] 2020 [] [[XText "A"; XNum 10]] ]}.

Definition all_writable (p : string) : bool := true.

(** A GitHub Actions runner. *)
Definition runner_host : Host :=
  posix_host "/home/runner/work/FieldNBalance/FieldNBalance".

Definition runner_env : gmap string string :=
  <["GITHUB_ACTIONS" := "true"]>
    (<["GITHUB_WORKSPACE" := "/home/runner/work/FieldNBalance/FieldNBalance"]>
       ∅).

(** A machine where the notebook sits in a directory whose name holds
    backslashes, so that the project name is one of the fragments. *)
Definition checkout_host : Host :=
  posix_host "/home/u\FieldNBalance\TestGraphs\MakeConfigs".

(** A file system that refuses every write, and one that accepts the CSV
    of [repo_host] and nothing else. *)
Definition read_only (p : string) : bool := false.

Definition only_csv_writable (p : string) : bool :=
  String.eqb p (moisture_dir +:+ "/FieldConfigs.csv").

(** The file system of the scenario with one more file in it. *)
Definition fs_with_notes (sh : Sheet) : gmap string (@file frame_pickle) :=
  <["/home/u/notes.txt" := Text "depths in cm"]> (fs_with sh).

(** The text the CSV of the scenario holds, and the text it would hold if
    its header began with [Name]. *)
Definition csv_AB : string :=
  ",A,B" +:+ String LF ("Depth,10," +:+ String LF EmptyString).

Definition csv_AB_with_axis_name : string :=
  "Name,A,B" +:+ String LF ("Depth,10," +:+ String LF EmptyString).

Definition table_AB : DataFrame :=
  {| index_name := Some "Name"; index := [CStr "A"; CStr "B"];
     columns_name := None; columns := [CStr "Depth"];
     values := [[CInt 10]; [CStr EmptyString]] |}.

(** * Properties *)

(** ** Strings *)

Section PyFacts.

Lemma append_nil_l (t : string) : EmptyString +:+ t = t.
Proof. reflexivity. Qed.

Lemma append_cons_l (a : ascii) (s t : string) :
  String a s +:+ t = String a (s +:+ t).
Proof. reflexivity. Qed.

Ltac str_norm := simpl; rewrite ?append_nil_l, ?append_cons_l.

Lemma append_empty_r (s : string) : s +:+ EmptyString = s.
Proof. induction s as [|a s IH]; str_norm; [done | by rewrite IH]. Qed.

Lemma append_assoc3 (a b c : string) : (a +:+ b) +:+ c = a +:+ (b +:+ c).
Proof. induction a as [|x a IH]; str_norm; [done | by rewrite IH]. Qed.

Lemma prefix_append (n post : string) : String.prefix n (n +:+ post) = true.
Proof.
  induction n as [|a n IH]; str_norm.
  - by destruct post.
  - destruct (ascii_dec a a); [apply IH | done].
Qed.

Lemma prefix_split (n h : string) :
  String.prefix n h = true -> exists post, h = n +:+ post.
Proof.
  revert h. induction n as [|a n IH]; intros h Hp.
  - by exists h.
  - destruct h as [|b h]; simpl in Hp; [done |].
    destruct (ascii_dec a b) as [-> |]; [| done].
    destruct (IH _ Hp) as [post ->]. by exists post.
Qed.

Lemma str_contains_nil (n : string) :
  Py.str_contains n EmptyString = String.prefix n EmptyString || false.
Proof. reflexivity. Qed.

Lemma str_contains_cons (n : string) (a : ascii) (h : string) :
  Py.str_contains n (String a h)
  = String.prefix n (String a h) || Py.str_contains n h.
Proof. reflexivity. Qed.

(** The [in] test is the substring relation. *)
Lemma str_contains_spec (n h : string) :
  Py.str_contains n h = true <-> exists pre post, h = pre +:+ (n +:+ post).
Proof.
  split.
  - induction h as [|a h IH]; intros Hc.
    + rewrite str_contains_nil, orb_false_r in Hc.
      apply prefix_split in Hc as [post Hc]. by exists EmptyString, post.
    + rewrite str_contains_cons in Hc. apply orb_true_iff in Hc as [Hp | Hc].
      * apply prefix_split in Hp as [post Hp]. by exists EmptyString, post.
      * destruct (IH Hc) as (pre & post & ->). by exists (String a pre), post.
  - intros (pre & post & ->). induction pre as [|a pre IH].
    + rewrite append_nil_l.
      assert (Hp : String.prefix n (n +:+ post) = true) by apply prefix_append.
      destruct (n +:+ post).
      * by rewrite str_contains_nil, Hp.
      * by rewrite str_contains_cons, Hp.
    + rewrite append_cons_l, str_contains_cons, IH. apply orb_true_r.
Qed.

Lemma str_split_nonempty (c : ascii) (s : string) : Py.str_split c s <> [].
Proof.
  destruct s as [|a s]; simpl; [done |].
  destruct (Ascii.eqb a c); [done |]. by destruct (Py.str_split c s).
Qed.

(** Gluing the fragments back, each followed by the separator, gives the
    text followed by one separator. *)
Lemma str_split_glue (c : ascii) (s : string) :
  foldr (fun d acc => d +:+ (String c EmptyString +:+ acc)) EmptyString
    (Py.str_split c s)
  = s +:+ String c EmptyString.
Proof.
  induction s as [|a s IH]; str_norm; [done |].
  destruct (Ascii.eqb_spec a c) as [-> | Hne].
  - str_norm. by rewrite IH.
  - pose proof (str_split_nonempty c s) as Hnil.
    destruct (Py.str_split c s) as [|w ws]; [done |].
    simpl in *. rewrite append_cons_l. by rewrite IH.
Qed.

Lemma walk_root_no_match (root : string) (frags : list string) :
  "FieldNBalance" ∉ frags ->
  walk_root root frags
  = root +:+ foldr (fun d acc => d +:+ ("\" +:+ acc)) EmptyString frags.
Proof.
  revert root. induction frags as [|d rest IH]; intros root Hno; simpl.
  - by rewrite append_empty_r.
  - apply not_elem_of_cons in Hno as [Hd Hrest].
    destruct (String.eqb_spec d "FieldNBalance") as [-> | _]; [done |].
    rewrite IH by done. by rewrite !append_assoc3.
Qed.

(** When the project name is met, the root is what came before it. *)
Lemma walk_root_match (root : string) (before after : list string) :
  "FieldNBalance" ∉ before ->
  walk_root root (before ++ "FieldNBalance" :: after)
  = root +:+ foldr (fun d acc => d +:+ ("\" +:+ acc)) EmptyString before.
Proof.
  revert root. induction before as [|d rest IH]; intros root Hno; simpl.
  - by rewrite append_empty_r.
  - apply not_elem_of_cons in Hno as [Hd Hrest].
    destruct (String.eqb_spec d "FieldNBalance") as [-> | _]; [done |].
    rewrite IH by done. by rewrite !append_assoc3.
Qed.

End PyFacts.

(** ** Frames *)

Section PandasFacts.

Lemma select_filter {A} (f : A -> bool) (d : A) (l : list A) :
  select (map f l) d l = filter (fun x => f x = true) l.
Proof.
  induction l as [|a l IH]; simpl; [done |].
  rewrite filter_cons, IH. destruct (f a) eqn:E.
  - by rewrite decide_True.
  - by rewrite decide_False.
Qed.

(** The width of a selected row depends on the mask alone. *)
Lemma select_length {A} (mask : list bool) (d : A) (xs : list A) :
  length (select mask d xs) = length (filter (fun b => b = true) mask).
Proof.
  revert xs. induction mask as [|b mask IH]; intros xs; simpl; [done |].
  rewrite filter_cons. destruct b.
  - rewrite decide_True by done. simpl. f_equal. apply IH.
  - rewrite decide_False by done. apply IH.
Qed.

(** Selecting twice with the same test changes nothing more. *)
Lemma select_idem {A B} (f : A -> bool) (d : B) (hd : list A)
    (xs : list B) :
  select (map f (filter (fun x => f x = true) hd)) d
    (select (map f hd) d xs)
  = select (map f hd) d xs.
Proof.
  revert xs. induction hd as [|a hd IH]; intros xs; simpl; [done |].
  rewrite filter_cons. destruct (f a) eqn:E.
  - rewrite decide_True by done. simpl. rewrite E. f_equal. apply IH.
  - rewrite decide_False by congruence. apply IH.
Qed.

Lemma na_filter_nil (c : cell) : na_filter [] c = c.
Proof. by destruct c. Qed.

Lemma select_text_labels (mask : list bool) (hd : list string) :
  map label_cell (select mask (LText EmptyString) (map LText hd))
  = map CStr (select mask EmptyString hd).
Proof.
  revert hd. induction mask as [|b mask IH]; intros hd; [done |].
  destruct hd as [|h hd]; simpl.
  - specialize (IH []). simpl in IH. destruct b; simpl; by rewrite IH.
  - destruct b; simpl; by rewrite IH.
Qed.

(** *** The rows the reader hands on *)

Lemma drop_blank_tail_prefix rws : drop_blank_tail rws `prefix_of` rws.
Proof.
  induction rws as [|r rws IH]; simpl; [done |].
  destruct (drop_blank_tail rws) as [|k kept].
  - destruct (forallb is_blank r); [apply prefix_nil |].
    by apply prefix_cons, prefix_nil.
  - by apply prefix_cons.
Qed.

Lemma drop_blank_tail_length rws : length (drop_blank_tail rws) <= length rws.
Proof. apply prefix_length, drop_blank_tail_prefix. Qed.

(** Nothing is dropped when the last row holds something. *)
Lemma drop_blank_tail_full rws r :
  last rws = Some r -> forallb is_blank r = false -> drop_blank_tail rws = rws.
Proof.
  induction rws as [|r0 rws IH]; [done |]. intros Hlast Hr.
  destruct rws as [|r1 rws].
  - simpl in *. injection Hlast as ->. by rewrite Hr.
  - change (last (r0 :: r1 :: rws)) with (last (r1 :: rws)) in Hlast.
    specialize (IH Hlast Hr). simpl in *. by rewrite IH.
Qed.

(** Rows past the first [n] play no part in what is handed on. *)
Lemma get_sheet_data_first_rows n sh :
  get_sheet_data n (first_rows n sh) = get_sheet_data n sh.
Proof. unfold get_sheet_data, first_rows; simpl. by rewrite take_take, Nat.min_id. Qed.

Lemma get_sheet_data_length n sh :
  length (rows (get_sheet_data n sh)) <= min n (length (rows sh)).
Proof.
  unfold get_sheet_data; simpl. rewrite <- length_take.
  apply drop_blank_tail_length.
Qed.

(** *** The parser *)

Lemma parse_sheet_columns sh f k :
  columns (parse_sheet sh f k)
  = map CStr (filter (fun x => f x = true) (header sh)).
Proof.
  unfold parse_sheet, frame_of_mask; simpl.
  by rewrite select_text_labels, select_filter.
Qed.

Lemma read_excel_columns sh n f k :
  columns (read_excel sh n f k)
  = map CStr (filter (fun x => f x = true) (header sh)).
Proof. unfold read_excel. by rewrite parse_sheet_columns. Qed.

(** With [keep_default_na=False] every cell is what the reader handed
    on: no text is read as NaN. *)
Lemma read_excel_values_plain sh n f :
  values (read_excel sh n f false)
  = map (fun r => map convert_cell (select (map f (header sh)) XBlank r))
      (rows (get_sheet_data n sh)).
Proof.
  unfold read_excel, parse_sheet, frame_of_mask; simpl.
  apply map_ext; intros r. apply map_ext; intros c. apply na_filter_nil.
Qed.

Lemma parse_sheet_rectangular sh f k : rectangular (parse_sheet sh f k).
Proof.
  unfold rectangular, parse_sheet, frame_of_mask; simpl. split.
  - unfold range_index. by rewrite !length_map, length_seq.
  - apply Forall_map, Forall_forall; intros r _.
    by rewrite !length_map, !select_length.
Qed.

Lemma read_excel_rectangular sh n f k : rectangular (read_excel sh n f k).
Proof. apply parse_sheet_rectangular. Qed.

(** Rows past the first [n] play no part. *)
Lemma read_excel_take sh n f k :
  read_excel sh n f k = read_excel (first_rows n sh) n f k.
Proof. unfold read_excel. by rewrite get_sheet_data_first_rows. Qed.

(** Columns the test rejects play no part in what the parser builds. *)
Lemma parse_sheet_usecols sh f k :
  parse_sheet sh f k = parse_sheet (accepted_columns f sh) f k.
Proof.
  unfold parse_sheet, frame_of_mask; simpl. f_equal.
  - by rewrite !length_map.
  - rewrite !select_text_labels. f_equal. rewrite !select_filter.
    induction (header sh) as [|a hd IH]; simpl; [done |].
    rewrite filter_cons. destruct (f a) eqn:E.
    + rewrite decide_True by done. rewrite filter_cons, decide_True by done.
      by f_equal.
    + by rewrite decide_False by congruence.
  - rewrite map_map. apply map_ext; intros r.
    f_equal. symmetry. apply (select_idem f XBlank (header sh) r).
Qed.

Lemma read_excel_usecols sh n f k :
  read_excel sh n f k
  = parse_sheet (accepted_columns f (get_sheet_data n sh)) f k.
Proof. unfold read_excel. apply parse_sheet_usecols. Qed.

Lemma read_excel_row_count sh n f k :
  length (values (read_excel sh n f k)) = length (rows (get_sheet_data n sh)).
Proof.
  unfold read_excel, parse_sheet, frame_of_mask; simpl. by rewrite length_map.
Qed.

(** *** Labels of any kind *)

Lemma eval_usecols_text (hd : list string) :
  eval_usecols usecols_lambda (map LText hd) = Some (map unnamed_not_in hd).
Proof. induction hd as [|h hd IH]; simpl; [done | by rewrite IH]. Qed.

Lemma eval_usecols_number (before : list string) z after :
  eval_usecols usecols_lambda (map LText before ++ LNum z :: after) = None.
Proof. induction before as [|h hd IH]; simpl; [done | by rewrite IH]. Qed.

(** On text labels the general reader is [read_excel]. *)
Lemma read_labelled_text sh n k :
  read_labelled (map LText (header sh)) (rows sh) n usecols_lambda k
  = Some (read_excel sh n unnamed_not_in k).
Proof. unfold read_labelled. by rewrite eval_usecols_text. Qed.

Lemma read_labelled_number before z after rws n k :
  read_labelled (map LText before ++ LNum z :: after) rws n usecols_lambda k
  = None.
Proof. unfold read_labelled. by rewrite eval_usecols_number. Qed.

(** *** [set_index] *)

Lemma set_index_Some key df df' :
  set_index key df = Some df' ->
  exists k,
    columns df !! k = Some (CStr key)
    /\ df' = {| index_name := Some key;
                index := map (fun r => default CNaN (r !! k)) (values df);
                columns_name := columns_name df;
                columns := delete k (columns df);
                values := map (delete k) (values df) |}.
Proof.
  unfold set_index. intros Hs.
  destruct (list_find _ _) as [[k c]|] eqn:Hf; [| done].
  apply list_find_Some in Hf as (Hk & -> & _).
  exists k. split; [done | congruence].
Qed.

Lemma set_index_None key df :
  set_index key df = None <-> CStr key ∉ columns df.
Proof.
  unfold set_index. split.
  - destruct (list_find _ _) as [[k c]|] eqn:Hf; [done | intros _].
    apply list_find_None in Hf. intros Hin.
    by apply (proj1 (Forall_forall _ _) Hf _ Hin).
  - intros Hno. destruct (list_find _ _) as [[k c]|] eqn:Hf; [| done].
    apply list_find_Some in Hf as (Hk & -> & _).
    destruct Hno. by eapply list_elem_of_lookup_2.
Qed.

Lemma name_passes_usecols : unnamed_not_in "Name" = true.
Proof. reflexivity. Qed.

Lemma elem_of_map_CStr (x : string) (l : list string) :
  CStr x ∈ map CStr l <-> x ∈ l.
Proof.
  change (map CStr l) with (CStr <$> l). rewrite list_elem_of_fmap. split.
  - by intros (y & [= ->] & Hy).
  - intros Hx. by exists x.
Qed.

(** A worksheet has a table exactly when its header has a [Name]. *)
Lemma config_table_None sh : config_table sh = None <-> "Name" ∉ header sh.
Proof.
  unfold config_table.
  rewrite set_index_None, read_excel_columns, elem_of_map_CStr.
  rewrite list_elem_of_filter. split; intros Hno Hin; apply Hno.
  - split; [apply name_passes_usecols | done].
  - by destruct Hin.
Qed.

Lemma config_table_Some sh :
  "Name" ∈ header sh -> exists df, config_table sh = Some df.
Proof.
  intros Hin. destruct (config_table sh) as [df|] eqn:E; [by exists df |].
  by apply config_table_None in E.
Qed.

Lemma set_index_rectangular key df df' :
  rectangular df -> set_index key df = Some df' -> rectangular df'.
Proof.
  intros [Hlen Hrows] Hs. apply set_index_Some in Hs as (k & Hk & ->).
  unfold rectangular; simpl. split.
  - by rewrite !length_map.
  - apply Forall_map. eapply Forall_impl; [exact Hrows |].
    intros r Hr; simpl. rewrite !length_delete; [by rewrite Hr | |].
    + by rewrite Hk.
    + apply lookup_lt_is_Some. rewrite Hr. by eapply lookup_lt_Some.
Qed.

(** *** [transpose] *)

Lemma transpose_values_length n rws :
  Forall (fun r => length r = n) rws -> length (transpose_values n rws) = n.
Proof.
  induction 1 as [|r rws Hr _ IH]; simpl.
  - apply length_replicate.
  - rewrite length_zip_with. lia.
Qed.

(** Entry [(j, i)] of the transposed values is entry [(i, j)] of the
    original ones. *)
Lemma transpose_values_cell n rws i j :
  j < n -> Forall (fun r => length r = n) rws ->
  transpose_values n rws !! j ≫= (fun c => c !! i)
  = rws !! i ≫= (fun r => r !! j).
Proof.
  intros Hj Hall. revert i.
  induction Hall as [|r rws Hr Hall IH]; intros i; simpl.
  - by rewrite lookup_replicate_2.
  - rewrite lookup_zip_with.
    destruct (lookup_lt_is_Some_2 r j) as [x Hx]; [lia |].
    destruct (lookup_lt_is_Some_2 (transpose_values n rws) j) as [t Ht].
    { by rewrite transpose_values_length. }
    rewrite Hx, Ht; simpl. destruct i as [|i]; simpl; [done |].
    rewrite <- IH, Ht. done.
Qed.

Lemma transpose_values_zip m r T :
  length r = length T ->
  transpose_values (S m) (zip_with cons r T) = r :: transpose_values m T.
Proof.
  revert T. induction r as [|x r IH]; intros [|t T] Hlen; simpl in *; try done.
  rewrite IH by lia. done.
Qed.

Lemma transpose_values_involutive n rws :
  Forall (fun r => length r = n) rws ->
  transpose_values (length rws) (transpose_values n rws) = rws.
Proof.
  induction 1 as [|r rws Hr Hall IH]; simpl.
  - by destruct n.
  - rewrite transpose_values_zip, IH; [done |].
    by rewrite transpose_values_length.
Qed.

Lemma transpose_rectangular df : rectangular df -> rectangular (transpose df).
Proof.
  intros [Hlen Hrows]. unfold rectangular, transpose; simpl. split.
  - by apply transpose_values_length.
  - rewrite <- Hlen. clear Hlen.
    induction Hrows as [|r rws Hr Hall IH]; simpl.
    + by apply Forall_replicate.
    + apply Forall_lookup; intros j c Hc.
      rewrite lookup_zip_with in Hc.
      destruct (r !! j) as [x|]; simpl in Hc; [| done].
      destruct (transpose_values _ rws !! j) as [t|] eqn:Ht; simpl in Hc;
        [| done].
      injection Hc as <-. simpl. f_equal.
      by apply (proj1 (Forall_lookup _ _) IH j t).
Qed.

(** Transposing twice gives the frame back. *)
Lemma transpose_involutive df :
  rectangular df -> transpose (transpose df) = df.
Proof.
  intros [Hlen Hrows]. destruct df as [iname idx cname cols vals].
  unfold transpose; simpl in *. f_equal.
  rewrite <- Hlen. by apply transpose_values_involutive.
Qed.

(** *** Frames without NaN *)

Lemma convert_cell_not_nan c : is_nan (convert_cell c) = false.
Proof. by destruct c. Qed.

Lemma read_excel_no_nan sh n f : no_nan (read_excel sh n f false).
Proof.
  unfold no_nan. rewrite read_excel_values_plain, read_excel_columns.
  split; [| split].
  - unfold read_excel, parse_sheet, frame_of_mask, range_index; simpl.
    apply Forall_map, Forall_forall. done.
  - apply Forall_map, Forall_forall. done.
  - apply Forall_map, Forall_forall; intros r _.
    apply Forall_map, Forall_forall; intros c _. apply convert_cell_not_nan.
Qed.

Lemma set_index_no_nan key df df' :
  rectangular df -> no_nan df -> set_index key df = Some df' -> no_nan df'.
Proof.
  intros [Hlen Hrows] (Hi & Hc & Hv) Hs.
  apply set_index_Some in Hs as (k & Hk & ->).
  unfold no_nan; simpl. repeat split.
  - apply Forall_map, Forall_forall; intros r Hr.
    pose proof (proj1 (Forall_forall _ _) Hrows r Hr) as Hw.
    pose proof (proj1 (Forall_forall _ _) Hv r Hr) as Hn.
    destruct (lookup_lt_is_Some_2 r k) as [c Hck].
    { simpl in Hw. rewrite Hw. by eapply lookup_lt_Some. }
    rewrite Hck; simpl.
    apply (proj1 (Forall_lookup _ _) Hn k c Hck).
  - apply Forall_forall; intros c Hin.
    apply (proj1 (Forall_forall _ _) Hc). by eapply list_elem_of_delete_inv.
  - apply Forall_map. eapply Forall_impl; [exact Hv |]. intros r Hr; simpl.
    apply Forall_forall; intros c Hin.
    apply (proj1 (Forall_forall _ _) Hr). by eapply list_elem_of_delete_inv.
Qed.



End PandasFacts.

Lemma value_text_or_not (v : value) :
  (exists s, v = VStr s) \/ (forall s, v <> VStr s).
Proof. destruct v; try (by right); left; by eexists. Qed.

(** ** Running the script *)

Section ScriptFacts.

Context {host : Host} {pk : Pickle}.

Implicit Types (st : state) (env : gmap string string)
  (fs : gmap string file) (w : string -> bool).

(** The comparison on line 19 is between a text (or [None]) and a
    boolean, and so is false whatever the environment holds. *)
Lemma ci_test_false st : ci_test st = (Return false, st).
Proof.
  unfold ci_test, bind, os_getenv, ret.
  by destruct (environ st !! "GITHUB_ACTIONS").
Qed.

Lemma resolver_local st : resolver st = local_branch st.
Proof. unfold resolver, bind. by rewrite ci_test_false. Qed.

(** *** One step at a time *)

Lemma bind_Return {A B} (m : M A) (k : A -> M B) st a st' :
  m st = (Return a, st') -> bind m k st = k a st'.
Proof. unfold bind. by intros ->. Qed.

Lemma bind_Raise {A B} (m : M A) (k : A -> M B) st e st' :
  m st = (Raise e, st') -> bind m k st = (Raise e, st').
Proof. unfold bind. by intros ->. Qed.

Lemma set_var_run x v st :
  set_var x v st = (Return tt, with_globals (<[x := v]> (globals st)) st).
Proof. reflexivity. Qed.

Lemma get_var_unbound x st :
  globals st !! x = None -> get_var x st = (Raise (NameError x), st).
Proof. unfold get_var. by intros ->. Qed.

Lemma get_str_run x s st :
  globals st !! x = Some (VStr s) -> get_str x st = (Return s, st).
Proof. unfold get_str, bind, get_var. by intros ->. Qed.

Lemma get_str_unbound x st :
  globals st !! x = None -> get_str x st = (Raise (NameError x), st).
Proof. unfold get_str, bind, get_var. by intros ->. Qed.

Lemma get_list_run x l st :
  globals st !! x = Some (VList l) -> get_list x st = (Return l, st).
Proof. unfold get_list, bind, get_var. by intros ->. Qed.

Lemma get_frame_run x df st :
  globals st !! x = Some (VFrame df) -> get_frame x st = (Return df, st).
Proof. unfold get_frame, bind, get_var. by intros ->. Qed.

(** Look a name up through the assignments made so far. *)
Ltac lookup_name :=
  simpl;
  repeat first [ rewrite lookup_insert_eq | rewrite lookup_insert_ne by done ];
  first [ eassumption | reflexivity ].

(** Run the next statement of a sequence when it returns. *)
Ltac run_next :=
  first
    [ erewrite bind_Return; [| apply set_var_run ]
    | erewrite bind_Return; [| apply get_str_run; lookup_name ]
    | erewrite bind_Return; [| apply get_list_run; lookup_name ]
    | erewrite bind_Return; [| apply get_frame_run; lookup_name ] ].

Lemma with_globals_same st : with_globals (globals st) st = st.
Proof. by destruct st. Qed.

(** The loop computes [walk_root], touches no name but [root] and [d],
    and what it leaves bound depends on the names alone. *)
Lemma for_rootfrags_run (frags : list string) (g0 : gmap string value)
    (r : string) :
  g0 !! "root" = Some (VStr r) ->
  exists g,
    (forall st, globals st = g0 ->
       for_rootfrags frags st = (Return tt, with_globals g st))
    /\ g !! "root" = Some (VStr (walk_root r frags))
    /\ forall x, x <> "root" -> x <> "d" -> g !! x = g0 !! x.
Proof.
  revert g0 r. induction frags as [|d rest IH]; intros g0 r Hr.
  - exists g0. split; [| done]. intros st <-. by rewrite with_globals_same.
  - cbn [for_rootfrags walk_root].
    destruct (py_eq (VStr d) (VStr "FieldNBalance")).
    + exists (<["d" := VStr d]> g0). split; [| split].
      * intros st <-. by run_next.
      * by rewrite lookup_insert_ne.
      * intros x _ Hx. by rewrite lookup_insert_ne.
    + destruct (IH (<["root" := VStr (r +:+ (d +:+ "\"))]>
                      (<["d" := VStr d]> g0)) (r +:+ (d +:+ "\")))
        as (g & Hrun & Hroot & Hframe).
      { by rewrite lookup_insert_eq. }
      exists g. split; [| split; [done |]].
      * intros st <-. run_next.
        erewrite bind_Return; [| run_next; apply set_var_run ].
        by rewrite Hrun.
      * intros x Hx1 Hx2. rewrite Hframe by done.
        by rewrite !lookup_insert_ne.
Qed.

(** Lines 24 to 31 never raise: they leave [root] and [path] bound to
    what [walk_root] makes of the notebook path. *)
Lemma local_branch_run (g0 : gmap string value) :
  exists g,
    (forall st, globals st = g0 ->
       local_branch st = (Return tt, with_globals g st))
    /\ g !! "path" = Some (VStr local_path)
    /\ g !! "root" = Some (VStr local_root)
    /\ g !! "rootfrags" = Some (VList notebook_fragments)
    /\ forall x, x <> "rootfrags" -> x <> "root" -> x <> "d" -> x <> "path" ->
         g !! x = g0 !! x.
Proof.
  destruct (for_rootfrags_run notebook_fragments
              (<["root" := VStr EmptyString]>
                 (<["rootfrags" := VList notebook_fragments]> g0))
              EmptyString)
    as (g & Hrun & Hroot & Hframe).
  { by rewrite lookup_insert_eq. }
  exists (<["path" := VStr local_path]> g). split; [| split; [| split; [| split]]].
  - intros st <-. unfold local_branch. do 3 run_next.
    erewrite bind_Return; [| by rewrite Hrun ].
    erewrite bind_Return; [| apply get_str_run; simpl; exact Hroot ].
    by rewrite set_var_run.
  - by rewrite lookup_insert_eq.
  - by rewrite lookup_insert_ne.
  - rewrite lookup_insert_ne, Hframe by done.
    by rewrite lookup_insert_ne, lookup_insert_eq.
  - intros x H1 H2 H3 H4. rewrite lookup_insert_ne, Hframe by done.
    by rewrite !lookup_insert_ne.
Qed.

(** *** Lines 33 to 44, statement by statement *)

Lemma load_run st p :
  globals st !! "path" = Some (VStr p) ->
  load st =
    let xlsx := os_path_join p ["FieldConfigs.xlsx"] in
    let st1 := log (EvOpenRead xlsx) st in
    match files st !! xlsx with
    | Some (Xlsx sh) =>
        (Return tt,
         with_globals
           (<["Configs" := VFrame (read_excel sh 45 unnamed_not_in false)]>
              (globals st)) st1)
    | Some (XlsxNumberHeaded _ _ _ _) => (Raise TypeError, st1)
    | Some _ => (Raise ValueError, st1)
    | None => (Raise (FileNotFoundError xlsx), st1)
    end.
Proof.
  intros Hp. unfold load. run_next. unfold bind, pd_read_excel. cbv zeta.
  destruct (files st !! _) as [[sh|hb hz ha hr|s|b]|]; simpl; try done.
  - by rewrite read_labelled_text.
  - by rewrite read_labelled_number.
Qed.

Lemma index_by_name_run st df :
  globals st !! "Configs" = Some (VFrame df) ->
  index_by_name st =
    match set_index "Name" df with
    | Some T =>
        (Return tt, with_globals (<["Configs" := VFrame T]> (globals st)) st)
    | None => (Raise (KeyError "Name"), st)
    end.
Proof.
  intros Hc. unfold index_by_name. run_next.
  by destruct (set_index "Name" df).
Qed.

Lemma reshape_run st df :
  globals st !! "Configs" = Some (VFrame df) ->
  reshape st =
    (Return tt,
     with_globals (<["CSConfigs" := VFrame (transpose df)]> (globals st)) st).
Proof. intros Hc. unfold reshape. by run_next. Qed.

Lemma write_csv_run st t p :
  globals st !! "CSConfigs" = Some (VFrame t) ->
  globals st !! "path" = Some (VStr p) ->
  write_csv st =
    let csv := os_path_join p ["FieldConfigs.csv"] in
    if writable st csv
    then (Return tt, store csv (Text (to_csv os_linesep t)) st)
    else (Raise (PermissionError csv), st).
Proof. intros Ht Hp. unfold write_csv. by do 2 run_next. Qed.

Lemma write_pickle_run st df p :
  globals st !! "Configs" = Some (VFrame df) ->
  globals st !! "path" = Some (VStr p) ->
  write_pickle st =
    let pkl := os_path_join p ["FieldConfigs.pkl"] in
    if writable st pkl
    then (Return tt, store pkl (Pickled (pickle_dumps df)) st)
    else (Raise (PermissionError pkl), st).
Proof. intros Hc Hp. unfold write_pickle. by do 2 run_next. Qed.

(** Every way lines 33 to 44 can go, from a state in which [path] is
    bound to a text. *)
Lemma pipeline_run st p :
  globals st !! "path" = Some (VStr p) ->
  pipeline st =
    let xlsx := os_path_join p ["FieldConfigs.xlsx"] in
    let csv := os_path_join p ["FieldConfigs.csv"] in
    let pkl := os_path_join p ["FieldConfigs.pkl"] in
    let st1 := log (EvOpenRead xlsx) st in
    match files st !! xlsx with
    | None => (Raise (FileNotFoundError xlsx), st1)
    | Some (Xlsx sh) =>
        let df := read_excel sh 45 unnamed_not_in false in
        let st2 :=
          with_globals (<["Configs" := VFrame df]> (globals st)) st1 in
        match config_table sh with
        | None => (Raise (KeyError "Name"), st2)
        | Some T =>
            let st3 :=
              with_globals
                (<["CSConfigs" := VFrame (transpose T)]>
                   (<["Configs" := VFrame T]> (globals st2))) st2 in
            if writable st csv then
              let st4 :=
                store csv (Text (to_csv os_linesep (transpose T))) st3 in
              if writable st pkl
              then (Return tt, store pkl (Pickled (pickle_dumps T)) st4)
              else (Raise (PermissionError pkl), st4)
            else (Raise (PermissionError csv), st3)
        end
    | Some (XlsxNumberHeaded _ _ _ _) => (Raise TypeError, st1)
    | Some _ => (Raise ValueError, st1)
    end.
Proof.
  intros Hp. unfold pipeline, config_table. cbv zeta.
  pose proof (load_run st p Hp) as Hload. cbv zeta in Hload.
  destruct (files st !! _) as [[sh|hb hz ha hr|s|b]|];
    try (by erewrite bind_Raise by exact Hload).
  erewrite bind_Return by exact Hload.
  match goal with |- bind index_by_name _ ?s = _ =>
    pose proof (index_by_name_run s _ ltac:(lookup_name)) as Hidx
  end.
  destruct (set_index "Name" _) as [T|];
    [| by erewrite bind_Raise by exact Hidx ].
  erewrite bind_Return by exact Hidx.
  erewrite bind_Return by (apply reshape_run; lookup_name).
  match goal with |- bind write_csv _ ?s = _ =>
    pose proof (write_csv_run s (transpose T) p ltac:(lookup_name)
                  ltac:(lookup_name)) as Hcsv
  end.
  cbv zeta in Hcsv. simpl writable in Hcsv.
  destruct (writable st _);
    [| by erewrite bind_Raise by exact Hcsv ].
  erewrite bind_Return by exact Hcsv.
  match goal with |- write_pickle ?s = _ =>
    pose proof (write_pickle_run s T p ltac:(lookup_name)
                  ltac:(lookup_name)) as Hpkl
  end.
  cbv zeta in Hpkl. simpl writable in Hpkl. rewrite Hpkl.
  by destruct (writable st _).
Qed.

(** *** A whole run *)

Lemma resolver_fresh :
  exists g,
    resolved g
    /\ forall env fs w,
         resolver (fresh env fs w)
         = (Return tt, with_globals g (fresh env fs w)).
Proof.
  destruct (local_branch_run ∅) as (g & Hrun & Hpath & Hroot & _ & Hframe).
  exists g. split.
  - repeat split; try done; by rewrite Hframe.
  - intros env fs w. rewrite resolver_local. by apply Hrun.
Qed.

(** Every way a run can go. *)
Lemma run_cases :
  exists g,
    resolved g
    /\ forall env fs w,
         run env fs w =
           let st0 := with_globals g (fresh env fs w) in
           let st1 := log (EvOpenRead xlsx_file) st0 in
           match fs !! xlsx_file with
           | None => (Raise (FileNotFoundError xlsx_file), st1)
           | Some (Xlsx sh) =>
               let df := read_excel sh 45 unnamed_not_in false in
               let st2 := with_globals (<["Configs" := VFrame df]> g) st1 in
               match config_table sh with
               | None => (Raise (KeyError "Name"), st2)
               | Some T =>
                   let st3 :=
                     with_globals
                       (<["CSConfigs" := VFrame (transpose T)]>
                          (<["Configs" := VFrame T]>
                             (<["Configs" := VFrame df]> g))) st2 in
                   if w csv_file then
                     let st4 :=
                       store csv_file
                         (Text (to_csv os_linesep (transpose T))) st3 in
                     if w pkl_file
                     then (Return tt,
                           store pkl_file (Pickled (pickle_dumps T)) st4)
                     else (Raise (PermissionError pkl_file), st4)
                   else (Raise (PermissionError csv_file), st3)
               end
           | Some (XlsxNumberHeaded _ _ _ _) => (Raise TypeError, st1)
           | Some _ => (Raise ValueError, st1)
           end.
Proof.
  destruct resolver_fresh as (g & Hg & Hres). exists g. split; [done |].
  intros env fs w. unfold run, script.
  erewrite bind_Return by apply Hres.
  rewrite (pipeline_run _ local_path) by (simpl; apply Hg). done.
Qed.

(** A run that returns has gone all the way. *)
Lemma run_success env fs w :
  fst (run env fs w) = Return tt ->
  exists sh T,
    fs !! xlsx_file = Some (Xlsx sh)
    /\ config_table sh = Some T
    /\ w csv_file = true /\ w pkl_file = true
    /\ files (snd (run env fs w))
       = <[pkl_file := Pickled (pickle_dumps T)]>
           (<[csv_file := Text (to_csv os_linesep (transpose T))]> fs)
    /\ trace (snd (run env fs w))
       = [EvOpenRead xlsx_file; EvWrite csv_file; EvWrite pkl_file]
    /\ globals (snd (run env fs w)) !! "Configs" = Some (VFrame T)
    /\ globals (snd (run env fs w)) !! "CSConfigs"
       = Some (VFrame (transpose T)).
Proof.
  destruct run_cases as (g & Hg & Hrun). rewrite Hrun. cbv zeta.
  destruct (fs !! xlsx_file) as [[sh|hb hz ha hr|s|b]|] eqn:Hfs; try done.
  destruct (config_table sh) as [T|] eqn:HT; [| done].
  destruct (w csv_file) eqn:Hcsv; [| done].
  destruct (w pkl_file) eqn:Hpkl; [| done].
  intros _. exists sh, T. simpl. repeat split; try done.
  - by rewrite lookup_insert_ne, lookup_insert_eq.
  - by rewrite lookup_insert_eq.
Qed.

(** What line 39 leaves in [Configs]. *)
Lemma config_table_shape sh T :
  config_table sh = Some T ->
  index_name T = Some "Name" /\ columns_name T = None
  /\ rectangular T /\ no_nan T.
Proof.
  intros HT. unfold config_table in HT.
  pose proof (read_excel_rectangular sh 45 unnamed_not_in false) as Hrect.
  pose proof (read_excel_no_nan sh 45 unnamed_not_in) as Hnan.
  split; [| split; [| split]].
  - by apply set_index_Some in HT as (k & _ & ->).
  - by apply set_index_Some in HT as (k & _ & ->).
  - by eapply set_index_rectangular.
  - by eapply set_index_no_nan.
Qed.

(** *** Lines 20 to 22, and lines 33 to 44 without [path] *)

Lemma ci_branch_run st ws :
  environ st !! "GITHUB_WORKSPACE" = Some ws ->
  ci_branch st =
    (Return tt,
     with_globals
       (<["outPath" := VStr (os_path_join ws ["TestGraphs"; "Outputs"])]>
          (<["inPath" :=
               VStr (os_path_join ws
                       ["TestComponents"; "TestSets"; "Moisture"; "Outputs"])]>
             (<["root" := VStr ws]> (globals st)))) st).
Proof.
  intros Hws. unfold ci_branch.
  erewrite bind_Return;
    [| unfold os_environ_getitem; rewrite Hws; reflexivity ].
  by do 4 run_next.
Qed.

Lemma ci_branch_unset st :
  environ st !! "GITHUB_WORKSPACE" = None ->
  ci_branch st = (Raise (KeyError "GITHUB_WORKSPACE"), st).
Proof.
  intros Hws. unfold ci_branch.
  erewrite bind_Raise; [reflexivity |].
  unfold os_environ_getitem. by rewrite Hws.
Qed.

Lemma pipeline_path_unbound st :
  globals st !! "path" = None ->
  pipeline st = (Raise (NameError "path"), st).
Proof.
  intros Hp. unfold pipeline, load.
  do 2 (erewrite bind_Raise; [reflexivity |]). by apply get_str_unbound.
Qed.

Lemma pipeline_path_not_text st v :
  globals st !! "path" = Some v ->
  (forall s, v <> VStr s) ->
  pipeline st = (Raise TypeError, st).
Proof.
  intros Hp Hv. unfold pipeline, load.
  do 2 (erewrite bind_Raise; [reflexivity |]).
  unfold get_str, bind, get_var. rewrite Hp.
  destruct v; try done. by destruct (Hv s).
Qed.

(** Lines 33 to 44 never look at [outPath]. *)
Lemma pipeline_ignores_outPath st v :
  let a := pipeline st in
  let b := pipeline (with_globals (<["outPath" := v]> (globals st)) st) in
  fst a = fst b /\ files (snd a) = files (snd b)
  /\ trace (snd a) = trace (snd b).
Proof.
  cbv zeta. destruct (globals st !! "path") as [u|] eqn:Hp.
  - destruct (value_text_or_not u) as [[p ->] | Hu].
    + rewrite (pipeline_run st p Hp).
      rewrite (pipeline_run _ p) by (simpl; by rewrite lookup_insert_ne).
      cbv zeta. simpl.
      destruct (files st !! _) as [[sh|hb hz ha hr|s|b]|]; try done.
      destruct (config_table sh) as [T|]; [| done].
      destruct (writable st _); [| done].
      by destruct (writable st _).
    + rewrite (pipeline_path_not_text st u Hp Hu).
      by rewrite (pipeline_path_not_text _ u)
        by (done || (simpl; by rewrite lookup_insert_ne)).
  - rewrite (pipeline_path_unbound st Hp).
    by rewrite pipeline_path_unbound by (simpl; by rewrite lookup_insert_ne).
Qed.

(** *** The claims about the resolver and the files a run touches *)

(** C10.  Were the CI branch to run, the script would stop before it
    opens the spreadsheet: lines 20 to 22 bind [root], [inPath] and
    [outPath] and nothing else, so line 34 finds [path] unbound and
    raises [NameError]; if [GITHUB_WORKSPACE] is not set either, line 20
    already raises [KeyError].  In both cases nothing is opened, read or
    written. *)
Theorem ci_branch_leaves_path_unbound env fs w :
  let r := script_ci (fresh env fs w) in
  trace (snd r) = [] /\ files (snd r) = fs
  /\ globals (snd r) !! "path" = None
  /\ match env !! "GITHUB_WORKSPACE" with
     | Some ws =>
         fst r = Raise (NameError "path")
         /\ globals (snd r)
            = <["outPath" := VStr (os_path_join ws ["TestGraphs"; "Outputs"])]>
                (<["inPath" :=
                     VStr (os_path_join ws
                             ["TestComponents"; "TestSets"; "Moisture";
                              "Outputs"])]>
                   (<["root" := VStr ws]> ∅))
     | None =>
         fst r = Raise (KeyError "GITHUB_WORKSPACE")
         /\ globals (snd r) = ∅
     end.
Proof.
  cbv zeta. unfold script_ci.
  destruct (env !! "GITHUB_WORKSPACE") as [ws|] eqn:Hws.
  - erewrite bind_Return by (by apply ci_branch_run).
    rewrite pipeline_path_unbound by (simpl; by rewrite !lookup_insert_ne).
    simpl. by repeat split.
  - erewrite bind_Raise by (by apply ci_branch_unset). by simpl.
Qed.

(** C9.  Whatever the environment and the file system, a run opens at
    most the spreadsheet and writes at most the CSV and the snapshot, in
    that order, all three named by joining the one directory [path] with
    a file name; every other file is left as it was; [outPath] is never
    bound, and lines 33 to 44 would not look at it if it were. *)
Theorem writes_only_csv_and_pkl_next_to_the_spreadsheet env fs w :
  let r := run env fs w in
  trace (snd r) `prefix_of`
    [EvOpenRead (os_path_join local_path ["FieldConfigs.xlsx"]);
     EvWrite (os_path_join local_path ["FieldConfigs.csv"]);
     EvWrite (os_path_join local_path ["FieldConfigs.pkl"])]
  /\ (forall p, p <> csv_file -> p <> pkl_file ->
        files (snd r) !! p = fs !! p)
  /\ globals (snd r) !! "outPath" = None
  /\ forall st v,
       let a := pipeline st in
       let b := pipeline (with_globals (<["outPath" := v]> (globals st)) st) in
       fst a = fst b /\ files (snd a) = files (snd b)
       /\ trace (snd a) = trace (snd b).
Proof.
  cbv zeta. destruct run_cases as (g & Hg & Hrun). rewrite Hrun. cbv zeta.
  destruct Hg as (_ & _ & _ & Hout & _).
  fold xlsx_file csv_file pkl_file.
  split; [| split; [| split]].
  - destruct (fs !! xlsx_file) as [[sh|hb hz ha hr|s|b]|]; simpl;
      try (by eexists [_; _]).
    destruct (config_table sh) as [T|]; simpl; [| by eexists [_; _]].
    destruct (w csv_file); simpl; [| by eexists [_; _]].
    destruct (w pkl_file); simpl; [by exists [] | by eexists [_]].
  - intros p Hcsv Hpkl.
    destruct (fs !! xlsx_file) as [[sh|hb hz ha hr|s|b]|]; simpl; try done.
    destruct (config_table sh) as [T|]; simpl; [| done].
    destruct (w csv_file); simpl; [| done].
    destruct (w pkl_file); simpl.
    + by rewrite !lookup_insert_ne.
    + by rewrite lookup_insert_ne.
  - destruct (fs !! xlsx_file) as [[sh|hb hz ha hr|s|b]|]; simpl; try done.
    destruct (config_table sh) as [T|]; simpl;
      [| by rewrite lookup_insert_ne].
    destruct (w csv_file); simpl; [| by rewrite !lookup_insert_ne].
    destruct (w pkl_file); simpl; by rewrite !lookup_insert_ne.
  - apply pipeline_ignores_outPath.
Qed.

(** C8.  When no fragment of the notebook path is the project name, the
    local branch raises nothing: the loop appends every fragment and a
    backslash to [root], which ends up as the whole path followed by a
    backslash, [path] is joined onto that root, and the run goes on to
    open the spreadsheet under it. *)
Theorem project_name_absent_no_error :
  "FieldNBalance" ∉ notebook_fragments ->
  local_root
  = foldr (fun d acc => d +:+ ("\" +:+ acc)) EmptyString notebook_fragments
  /\ local_root = os_path_abspath "WS2.ipynb" +:+ "\"
  /\ (forall st, exists g,
        resolver st = (Return tt, with_globals g st)
        /\ g !! "root" = Some (VStr (os_path_abspath "WS2.ipynb" +:+ "\"))
        /\ g !! "path"
           = Some (VStr (os_path_join (os_path_abspath "WS2.ipynb" +:+ "\")
                           ["FieldNBalance"; "TestComponents"; "TestSets";
                            "Moisture"])))
  /\ forall env fs w,
       head (trace (snd (run env fs w)))
       = Some (EvOpenRead
                 (os_path_join
                    (os_path_join (os_path_abspath "WS2.ipynb" +:+ "\")
                       ["FieldNBalance"; "TestComponents"; "TestSets";
                        "Moisture"])
                    ["FieldConfigs.xlsx"])).
Proof.
  intros Hno.
  assert (Hfold : local_root
    = foldr (fun d acc => d +:+ ("\" +:+ acc)) EmptyString
        notebook_fragments).
  { unfold local_root. by rewrite walk_root_no_match. }
  assert (Hroot : local_root = os_path_abspath "WS2.ipynb" +:+ "\").
  { rewrite Hfold. unfold notebook_fragments.
    apply (str_split_glue "\" (os_path_abspath "WS2.ipynb")). }
  split; [done |]. split; [done |]. split.
  - intros st.
    destruct (local_branch_run (globals st)) as (g & Hrun & Hp & Hr & _).
    exists g. rewrite resolver_local, Hrun by done.
    unfold local_path in Hp. rewrite Hroot in Hp, Hr. done.
  - intros env fs w. destruct run_cases as (g & _ & Hrun).
    rewrite Hrun. cbv zeta. unfold xlsx_file, local_path. rewrite Hroot.
    destruct (fs !! _) as [[sh|hb hz ha hr|s|b]|]; simpl; try done.
    destruct (config_table sh) as [T|]; simpl; [| done].
    destruct (w csv_file); simpl; [| done].
    by destruct (w pkl_file).
Qed.

Lemma elem_of_map_LText (x : string) (l : list string) :
  LText x ∈ map LText l <-> x ∈ l.
Proof.
  change (map LText l) with (LText <$> l). rewrite list_elem_of_fmap. split.
  - by intros (y & [= ->] & Hy).
  - intros Hx. by exists x.
Qed.

(** C7, amended.  A workbook whose header has no [Name] makes the run
    fail before either output is written, with the file system as it was.
    When every header cell is text the failure is the [KeyError] of line
    39, the indexing step, and the table has been loaded into [Configs];
    when a header cell is a number, line 36 has already raised [TypeError]
    during the load and [Configs] is not bound. *)
Theorem missing_name_column_fails_before_writing env fs w f labels rws :
  fs !! xlsx_file = Some f ->
  worksheet f = Some (labels, rws) ->
  LText "Name" ∉ labels ->
  let r := run env fs w in
  files (snd r) = fs
  /\ trace (snd r) = [EvOpenRead xlsx_file]
  /\ globals (snd r) !! "CSConfigs" = None
  /\ match f with
     | Xlsx sh =>
         fst r = Raise (KeyError "Name")
         /\ globals (snd r) !! "Configs"
            = Some (VFrame (read_excel sh 45 unnamed_not_in false))
     | _ =>
         fst r = Raise TypeError
         /\ globals (snd r) !! "Configs" = None
     end.
Proof.
  intros Hfs Hws Hno. cbv zeta. destruct run_cases as (g & Hg & Hrun).
  rewrite Hrun. cbv zeta. rewrite Hfs.
  destruct Hg as (_ & _ & _ & _ & Hc & Hcs).
  destruct f as [sh|hb hz ha hr|s|b]; simpl in Hws; try done.
  injection Hws as <- <-. rewrite elem_of_map_LText in Hno.
  apply config_table_None in Hno. rewrite Hno. simpl.
  split_and!; try done.
  - by rewrite lookup_insert_ne.
  - by rewrite lookup_insert_eq.
Qed.

(** *** The claims about the two outputs *)

(** C1, amended.  After a run that returns, the CSV file holds the
    transposed table: its row labels are the column labels of [Configs]
    (the loaded labels without [Name]), its column labels are the values
    of the [Name] column, entry (j, i) is entry (i, j) of [Configs], and
    the records written are a header made of an empty first field (the
    row axis of the transposed frame has no name) followed by the [Name]
    values, then one record per column of [Configs], led by its label. *)
Theorem csv_holds_the_transposed_table env fs w :
  csv_file <> pkl_file ->
  fst (run env fs w) = Return tt ->
  exists sh T,
    fs !! xlsx_file = Some (Xlsx sh)
    /\ config_table sh = Some T
    /\ (exists k,
          let loaded := read_excel sh 45 unnamed_not_in false in
          columns loaded !! k = Some (CStr "Name")
          /\ index T = map (fun r => default CNaN (r !! k)) (values loaded)
          /\ columns T = delete k (columns loaded))
    /\ files (snd (run env fs w)) !! csv_file
       = Some (Text (to_csv os_linesep (transpose T)))
    /\ index (transpose T) = columns T
    /\ columns (transpose T) = index T
    /\ (forall i j, j < length (columns T) ->
          values (transpose T) !! j ≫= (fun c => c !! i)
          = values T !! i ≫= (fun r => r !! j))
    /\ csv_records (transpose T)
       = (EmptyString :: map (cell_str EmptyString) (index T))
         :: zip_with
              (fun c r =>
                 cell_str EmptyString c :: map (cell_str EmptyString) r)
              (columns T) (values (transpose T)).
Proof.
  intros Hne Hok.
  destruct (run_success env fs w Hok)
    as (sh & T & Hfs & HT & _ & _ & Hfiles & _).
  exists sh, T. rewrite Hfiles.
  destruct (config_table_shape sh T HT) as (_ & Hcn & [_ Hrows] & _).
  split; [done |]. split; [done |]. split.
  { unfold config_table in HT. apply set_index_Some in HT as (k & Hk & ->).
    by exists k. }
  split.
  { by rewrite lookup_insert_ne, lookup_insert_eq. }
  split; [done |]. split; [done |]. split.
  - intros i j Hj. by apply transpose_values_cell.
  - unfold csv_records, index_label. simpl. by rewrite Hcn.
Qed.

Lemma config_table_first_rows sh :
  config_table (first_rows 45 sh) = config_table sh.
Proof. unfold config_table. by rewrite <- read_excel_take. Qed.

Lemma config_table_index_length sh T :
  config_table sh = Some T ->
  length (index T) = length (rows (get_sheet_data 45 sh)).
Proof.
  intros HT. unfold config_table in HT.
  apply set_index_Some in HT as (k & _ & ->). cbn [index].
  by rewrite length_map, read_excel_row_count.
Qed.

(** C4, amended.  The loader takes the first 45 data rows and no more,
    less the entirely blank rows at their end, which the reader drops:
    the loaded values are those rows, in order, which are all the rows
    when there are at most 45 and the last one holds something; and when
    the run returns, the table and both output files are what they would
    be had the worksheet been cut after its 45th row. *)
Theorem loader_reads_at_most_45_rows env fs w sh :
  fs !! xlsx_file = Some (Xlsx sh) ->
  fst (run env fs w) = Return tt ->
  let r := run env fs w in
  let r' := run env (<[xlsx_file := Xlsx (first_rows 45 sh)]> fs) w in
  values (read_excel sh 45 unnamed_not_in false)
  = map (fun r => map convert_cell
                    (select (map unnamed_not_in (header sh)) XBlank r))
      (drop_blank_tail (take 45 (rows sh)))
  /\ (drop_blank_tail (take 45 (rows sh)) `prefix_of` rows sh)
  /\ (length (rows sh) <= 45 ->
      forall r, last (rows sh) = Some r -> forallb is_blank r = false ->
      drop_blank_tail (take 45 (rows sh)) = rows sh)
  /\ exists T,
       config_table sh = Some T
       /\ config_table (first_rows 45 sh) = Some T
       /\ length (index T) = length (drop_blank_tail (take 45 (rows sh)))
       /\ length (index T) <= 45
       /\ length (columns (transpose T)) <= 45
       /\ fst r' = Return tt
       /\ files (snd r) !! csv_file = files (snd r') !! csv_file
       /\ files (snd r) !! pkl_file = files (snd r') !! pkl_file
       /\ files (snd r) !! pkl_file = Some (Pickled (pickle_dumps T)).
Proof.
  intros Hfs Hok. cbv zeta.
  split; [apply read_excel_values_plain |].
  split.
  { etrans; [apply drop_blank_tail_prefix | apply prefix_take]. }
  split.
  { intros Hlen r Hlast Hr. rewrite take_ge by done.
    by apply (drop_blank_tail_full _ r). }
  destruct (run_success env fs w Hok)
    as (sh' & T & Hfs' & HT & Hcsv & Hpkl & Hfiles & _).
  assert (sh' = sh) as -> by congruence.
  exists T. rewrite Hfiles.
  destruct run_cases as (g & _ & Hrun). rewrite Hrun. cbv zeta.
  rewrite lookup_insert_eq, config_table_first_rows, HT, Hcsv, Hpkl. simpl.
  pose proof (config_table_index_length sh T HT) as Hidx.
  pose proof (get_sheet_data_length 45 sh) as Hle.
  split_and!; try done; try lia.
  - destruct (decide (csv_file = pkl_file)) as [-> | Hne].
    + by rewrite !lookup_insert_eq.
    + by rewrite !(lookup_insert_ne _ pkl_file csv_file), !lookup_insert_eq.
  - by rewrite !lookup_insert_eq.
  - by rewrite lookup_insert_eq.
Qed.

Lemma unnamed_rejected (h pre post : string) :
  h = pre +:+ ("Unnamed" +:+ post) -> unnamed_not_in h = false.
Proof.
  intros Hh. unfold unnamed_not_in.
  assert (Py.str_contains "Unnamed" h = true) as ->; [| done].
  apply str_contains_spec. by exists pre, post.
Qed.

(** C5.  A column whose label has [Unnamed] inside it is not a column of
    the loaded table, which is the table of the rows read without such
    columns; and when the run returns, the label is neither a column of
    the table whose snapshot is written nor a row label of the transposed
    table the CSV is written from. *)
Theorem unnamed_columns_are_dropped (h pre post : string) :
  h = pre +:+ ("Unnamed" +:+ post) ->
  (forall sh,
     (CStr h ∉ columns (read_excel sh 45 unnamed_not_in false))
     /\ (h ∉ header (accepted_columns unnamed_not_in sh))
     /\ read_excel sh 45 unnamed_not_in false
        = parse_sheet (accepted_columns unnamed_not_in (get_sheet_data 45 sh))
            unnamed_not_in false)
  /\ forall env fs w,
       fst (run env fs w) = Return tt ->
       exists sh T,
         fs !! xlsx_file = Some (Xlsx sh)
         /\ config_table sh = Some T
         /\ set_index "Name"
              (parse_sheet
                 (accepted_columns unnamed_not_in (get_sheet_data 45 sh))
                 unnamed_not_in false)
            = Some T
         /\ (CStr h ∉ columns T)
         /\ (CStr h ∉ index (transpose T))
         /\ files (snd (run env fs w))
            = <[pkl_file := Pickled (pickle_dumps T)]>
                (<[csv_file := Text (to_csv os_linesep (transpose T))]> fs).
Proof.
  intros Hh. pose proof (unnamed_rejected h pre post Hh) as Hrej.
  assert (Hload : forall sh,
    CStr h ∉ columns (read_excel sh 45 unnamed_not_in false)).
  { intros sh. rewrite read_excel_columns, elem_of_map_CStr.
    rewrite list_elem_of_filter. intros [Hacc _]. congruence. }
  split.
  - intros sh. split; [apply Hload |]. split; [| apply read_excel_usecols].
    simpl. rewrite list_elem_of_filter. intros [Hacc _]. congruence.
  - intros env fs w Hok.
    destruct (run_success env fs w Hok)
      as (sh & T & Hfs & HT & _ & _ & Hfiles & _).
    exists sh, T. rewrite <- read_excel_usecols.
    assert (CStr h ∉ columns T) as Hcol.
    { unfold config_table in HT.
      apply set_index_Some in HT as (k & _ & ->). simpl.
      intros Hin. apply list_elem_of_delete_inv in Hin. by apply (Hload sh). }
    by split_and!.
Qed.



End ScriptFacts.

(** ** More on whole runs *)

Section RunFacts.

Context {host : Host} {pk : Pickle}.

Implicit Types (st : state) (env : gmap string string)
  (fs : gmap string file) (w : string -> bool).

(** X1.  No environment variable has any effect on a run: with the same
    file system, two runs end the same way, with the same names bound, the
    same files and the same trace, whatever the two environments hold. *)
Theorem run_ignores_environment env1 env2 fs w :
  let r1 := run env1 fs w in
  let r2 := run env2 fs w in
  fst r1 = fst r2
  /\ globals (snd r1) = globals (snd r2)
  /\ files (snd r1) = files (snd r2)
  /\ trace (snd r1) = trace (snd r2).
Proof.
  cbv zeta. destruct run_cases as (g & _ & Hrun). rewrite !Hrun. cbv zeta.
  destruct (fs !! xlsx_file) as [[sh|hb hz ha hr|s|b]|]; simpl; try done.
  destruct (config_table sh) as [T|]; simpl; [| done].
  destruct (w csv_file); simpl; [| done].
  by destruct (w pkl_file).
Qed.

(** X2.  When the project name is one of the fragments of the notebook
    path, the loop stops there: [root] is the fragments before it, each
    followed by a backslash, the fragments after it play no part, and
    [path] is joined onto that root. *)
Theorem root_is_what_precedes_project_name (before after : list string) :
  notebook_fragments = before ++ "FieldNBalance" :: after ->
  "FieldNBalance" ∉ before ->
  forall st, exists g,
    resolver st = (Return tt, with_globals g st)
    /\ g !! "root"
       = Some (VStr (foldr (fun d acc => d +:+ ("\" +:+ acc)) EmptyString
                       before))
    /\ g !! "path"
       = Some (VStr (os_path_join
                       (foldr (fun d acc => d +:+ ("\" +:+ acc)) EmptyString
                          before)
                       ["FieldNBalance"; "TestComponents"; "TestSets";
                        "Moisture"])).
Proof.
  intros Hfrags Hno st.
  assert (Hroot : local_root
    = foldr (fun d acc => d +:+ ("\" +:+ acc)) EmptyString before).
  { unfold local_root. rewrite Hfrags. by rewrite walk_root_match. }
  destruct (local_branch_run (globals st)) as (g & Hrun & Hp & Hr & _).
  exists g. rewrite resolver_local, Hrun by done.
  unfold local_path in Hp. rewrite Hroot in Hp, Hr. done.
Qed.

(** X3.  When there is no spreadsheet where line 34 looks for it, the run
    raises [FileNotFoundError] for that path: [Configs] is never bound,
    nothing is written and the file system is as it was. *)
Theorem missing_spreadsheet_raises_before_writing env fs w :
  fs !! xlsx_file = None ->
  let r := run env fs w in
  fst r = Raise (FileNotFoundError xlsx_file)
  /\ files (snd r) = fs
  /\ trace (snd r) = [EvOpenRead xlsx_file]
  /\ globals (snd r) !! "Configs" = None.
Proof.
  intros Hfs. cbv zeta. destruct run_cases as (g & Hg & Hrun).
  rewrite Hrun. cbv zeta. rewrite Hfs. simpl.
  by destruct Hg as (_ & _ & _ & _ & Hc & _).
Qed.

(** X4.  The CSV is written first: when that write is refused the run
    stops with the error of line 42, the snapshot of line 44 is not
    attempted even where it would be accepted, and no file has changed. *)
Theorem refused_csv_stops_the_run env fs w sh :
  fs !! xlsx_file = Some (Xlsx sh) ->
  "Name" ∈ header sh ->
  w csv_file = false ->
  let r := run env fs w in
  fst r = Raise (PermissionError csv_file)
  /\ files (snd r) = fs
  /\ trace (snd r) = [EvOpenRead xlsx_file].
Proof.
  intros Hfs Hname Hcsv. cbv zeta. destruct run_cases as (g & _ & Hrun).
  rewrite Hrun. cbv zeta. rewrite Hfs.
  destruct (config_table_Some sh Hname) as [T ->]. by rewrite Hcsv.
Qed.

(** X5.  Nothing is rolled back: when the CSV has been written and the
    snapshot is refused, the run stops with the error of line 44 and the
    file system holds the new CSV next to whatever snapshot was there. *)
Theorem refused_snapshot_leaves_the_csv env fs w sh T :
  fs !! xlsx_file = Some (Xlsx sh) ->
  config_table sh = Some T ->
  w csv_file = true ->
  w pkl_file = false ->
  let r := run env fs w in
  fst r = Raise (PermissionError pkl_file)
  /\ files (snd r)
     = <[csv_file := Text (to_csv os_linesep (transpose T))]> fs
  /\ trace (snd r) = [EvOpenRead xlsx_file; EvWrite csv_file].
Proof.
  intros Hfs HT Hcsv Hpkl. cbv zeta. destruct run_cases as (g & _ & Hrun).
  rewrite Hrun. cbv zeta. by rewrite Hfs, HT, Hcsv, Hpkl.
Qed.


(** X7.  A run returns exactly when the spreadsheet is there, every cell
    of its header is text (it is an [Xlsx]), one of them is [Name], and
    both output paths accept a write. *)
Theorem run_returns_iff env fs w :
  fst (run env fs w) = Return tt
  <-> exists sh,
        fs !! xlsx_file = Some (Xlsx sh)
        /\ "Name" ∈ header sh
        /\ w csv_file = true
        /\ w pkl_file = true.
Proof.
  split.
  - intros Hok.
    destruct (run_success env fs w Hok) as (sh & T & Hfs & HT & Hc & Hp & _).
    exists sh. split_and!; try done.
    destruct (decide ("Name" ∈ header sh)) as [Hin | Hno]; [done |].
    apply config_table_None in Hno. congruence.
  - intros (sh & Hfs & Hname & Hc & Hp).
    destruct run_cases as (g & _ & Hrun). rewrite Hrun. cbv zeta.
    rewrite Hfs. destruct (config_table_Some sh Hname) as [T ->].
    by rewrite Hc, Hp.
Qed.

(** X8.  Running the script again on the file system a returning run has
    left changes nothing: the second run returns too and leaves every
    file as the first one did, provided the outputs do not have the
    spreadsheet's own name. *)
Theorem second_run_changes_nothing env fs w :
  xlsx_file <> csv_file ->
  xlsx_file <> pkl_file ->
  fst (run env fs w) = Return tt ->
  let fs' := files (snd (run env fs w)) in
  fst (run env fs' w) = Return tt
  /\ files (snd (run env fs' w)) = fs'.
Proof.
  intros Hcsv Hpkl Hok. cbv zeta.
  destruct (run_success env fs w Hok)
    as (sh & T & Hfs & HT & Hwc & Hwp & Hfiles & _).
  rewrite Hfiles. destruct run_cases as (g & _ & Hrun). rewrite Hrun.
  cbv zeta. rewrite !lookup_insert_ne, Hfs, HT, Hwc, Hwp by done. simpl.
  split; [done |]. apply map_eq; intros p.
  destruct (decide (p = pkl_file)) as [-> | Hp].
  { by rewrite !lookup_insert_eq. }
  rewrite !(lookup_insert_ne _ pkl_file p) by done.
  destruct (decide (p = csv_file)) as [-> | Hc].
  { by rewrite !lookup_insert_eq. }
  by repeat (rewrite lookup_insert_ne by done).
Qed.

(** X9.  The shape of the CSV of a returning run: it has as many records
    as the worksheet has accepted columns (the header record stands where
    [Name] was), and every record has one field more than the number of
    rows loaded, which are the rows the reader hands on: at most 45, and
    no more than the worksheet has. *)
Theorem csv_shape env fs w :
  fst (run env fs w) = Return tt ->
  exists sh T,
    fs !! xlsx_file = Some (Xlsx sh)
    /\ config_table sh = Some T
    /\ files (snd (run env fs w))
       = <[pkl_file := Pickled (pickle_dumps T)]>
           (<[csv_file :=
                Text (csv_text os_linesep (csv_records (transpose T)))]> fs)
    /\ length (csv_records (transpose T))
       = length (filter (fun x => unnamed_not_in x = true) (header sh))
    /\ Forall (fun rec =>
                length rec = S (length (drop_blank_tail (take 45 (rows sh)))))
         (csv_records (transpose T))
    /\ length (drop_blank_tail (take 45 (rows sh)))
       <= min 45 (length (rows sh)).
Proof.
  intros Hok.
  destruct (run_success env fs w Hok) as (sh & T & Hfs & HT & _ & _ & Hfiles & _).
  exists sh, T. split; [done |]. split; [done |]. split; [exact Hfiles |].
  pose proof (config_table_index_length sh T HT) as Hidx.
  change (rows (get_sheet_data 45 sh))
    with (drop_blank_tail (take 45 (rows sh))) in Hidx.
  destruct (config_table_shape sh T HT) as (_ & _ & Hrect & _).
  destruct (transpose_rectangular T Hrect) as [Hlen' Hrows'].
  simpl in Hlen', Hrows'.
  assert (Hcols : S (length (columns T))
    = length (filter (fun x => unnamed_not_in x = true) (header sh))).
  { pose proof HT as HT'. unfold config_table in HT'.
    apply set_index_Some in HT' as (k & Hk & HTeq). rewrite HTeq.
    cbn [columns]. rewrite length_delete by (by rewrite Hk).
    apply lookup_lt_Some in Hk. rewrite read_excel_columns in Hk |- *.
    rewrite length_map in Hk |- *. lia. }
  split; [| split].
  - unfold csv_records. simpl. by rewrite length_zip_with, Hlen', Nat.min_id.
  - unfold csv_records. simpl. constructor.
    + simpl. by rewrite length_map, Hidx.
    + apply Forall_lookup; intros j rec Hrec.
      rewrite lookup_zip_with in Hrec.
      destruct (columns T !! j) as [c|]; simpl in Hrec; [| done].
      destruct (transpose_values _ _ !! j) as [r|] eqn:Hr; simpl in Hrec;
        [| done].
      injection Hrec as <-. simpl. rewrite length_map.
      rewrite (proj1 (Forall_lookup _ _) Hrows' j r Hr). by rewrite Hidx.
  - apply (get_sheet_data_length 45 sh).
Qed.

(** X14.  What the snapshot is taken of: when a run returns, the file at
    the snapshot path is the encoding of the frame [Configs] is bound to
    at the end, which is the loaded table after line 39 (its row axis is
    named [Name] and its column axis has no name), while [CSConfigs] is
    bound to the transpose of that frame and is not what is encoded. *)
Theorem snapshot_is_of_the_indexed_table env fs w :
  fst (run env fs w) = Return tt ->
  exists sh T,
    fs !! xlsx_file = Some (Xlsx sh)
    /\ set_index "Name" (read_excel sh 45 unnamed_not_in false) = Some T
    /\ files (snd (run env fs w)) !! pkl_file
       = Some (Pickled (pickle_dumps T))
    /\ globals (snd (run env fs w)) !! "Configs" = Some (VFrame T)
    /\ globals (snd (run env fs w)) !! "CSConfigs"
       = Some (VFrame (transpose T))
    /\ index_name T = Some "Name"
    /\ columns_name T = None.
Proof.
  intros Hok.
  destruct (run_success env fs w Hok)
    as (sh & T & Hfs & HT & _ & _ & Hfiles & _ & Hconf & Hcs).
  exists sh, T. rewrite Hfiles.
  destruct (config_table_shape sh T HT) as (Hin & Hcn & _).
  split_and!; try done. by rewrite lookup_insert_eq.
Qed.

(** X11.  The spreadsheet is the only file a run reads: two file systems
    that hold the same thing at its path give the same outcome, the same
    names and the same trace, and, when the run returns, the same CSV and
    the same snapshot. *)
Theorem run_reads_only_the_spreadsheet env fs1 fs2 w :
  fs1 !! xlsx_file = fs2 !! xlsx_file ->
  let r1 := run env fs1 w in
  let r2 := run env fs2 w in
  fst r1 = fst r2
  /\ globals (snd r1) = globals (snd r2)
  /\ trace (snd r1) = trace (snd r2)
  /\ (fst r1 = Return tt ->
      files (snd r1) !! csv_file = files (snd r2) !! csv_file
      /\ files (snd r1) !! pkl_file = files (snd r2) !! pkl_file).
Proof.
  intros Hsame. cbv zeta. destruct run_cases as (g & _ & Hrun).
  rewrite !Hrun. cbv zeta. rewrite <- Hsame.
  destruct (fs1 !! xlsx_file) as [[sh|hb hz ha hr|s|b]|]; simpl; try done.
  destruct (config_table sh) as [T|]; simpl; [| done].
  destruct (w csv_file); simpl; [| done].
  destruct (w pkl_file); simpl; [| done].
  split_and!; try done. intros _. split.
  - destruct (decide (csv_file = pkl_file)) as [-> | Hne].
    + by rewrite !lookup_insert_eq.
    + by rewrite !(lookup_insert_ne _ pkl_file csv_file), !lookup_insert_eq.
  - by rewrite !lookup_insert_eq.
Qed.

(** X12.  The script reads no name it has not assigned first: started in
    an interpreter where any names are already bound, as when the notebook
    is run again in the same session, it ends as a run in a fresh
    interpreter does, leaves the same files, and adds the same events to
    the trace. *)
Theorem script_ignores_prior_bindings st :
  let r := script st in
  let r0 := run (environ st) (files st) (writable st) in
  fst r = fst r0
  /\ files (snd r) = files (snd r0)
  /\ trace (snd r) = trace st ++ trace (snd r0).
Proof.
  cbv zeta. unfold run, script.
  destruct (local_branch_run (globals st)) as (g & Hrun & Hp & _).
  destruct (local_branch_run ∅) as (g0 & Hrun0 & Hp0 & _).
  erewrite bind_Return by (rewrite resolver_local; by apply Hrun).
  erewrite (bind_Return _ _ (fresh _ _ _))
    by (rewrite resolver_local; by apply Hrun0).
  rewrite (pipeline_run _ local_path) by (simpl; exact Hp).
  rewrite (pipeline_run _ local_path) by (simpl; exact Hp0).
  cbv zeta. simpl.
  destruct (files st !! _) as [[sh|hb hz ha hr|s|b]|]; simpl; try done.
  destruct (config_table sh) as [T|]; simpl; [| done].
  destruct (writable st _); simpl; [| done].
  destruct (writable st _); simpl; by rewrite <- ?app_assoc.
Qed.

Lemma elem_of_delete_other {A} (x y : A) (i : nat) (l : list A) :
  l !! i = Some y -> x <> y -> x ∈ l -> x ∈ delete i l.
Proof.
  intros Hi Hne Hin. apply list_elem_of_lookup_1 in Hin as [j Hj].
  destruct (decide (j < i)) as [Hlt | Hge].
  - apply (list_elem_of_lookup_2 _ j). by rewrite list_lookup_delete_lt.
  - assert (j <> i) by (intros ->; congruence).
    apply (list_elem_of_lookup_2 _ (pred j)).
    rewrite list_lookup_delete_ge by lia.
    by replace (S (pred j)) with j by lia.
Qed.

(** X13.  No other column is dropped: a column of the worksheet whose
    label does not have [Unnamed] inside it is a column of the loaded
    table, and, unless it is [Name] itself, a column of the table indexed
    by name and a row label of its transpose. *)
Theorem other_columns_are_kept (h : string) sh :
  h ∈ header sh ->
  (forall pre post, h <> pre +:+ ("Unnamed" +:+ post)) ->
  CStr h ∈ columns (read_excel sh 45 unnamed_not_in false)
  /\ forall T,
       config_table sh = Some T -> h <> "Name" ->
       CStr h ∈ columns T /\ CStr h ∈ index (transpose T).
Proof.
  intros Hin Hno.
  assert (Hacc : unnamed_not_in h = true).
  { unfold unnamed_not_in.
    destruct (Py.str_contains "Unnamed" h) eqn:Hc; [| done].
    apply str_contains_spec in Hc as (pre & post & ->).
    by destruct (Hno pre post). }
  assert (Hload : CStr h ∈ columns (read_excel sh 45 unnamed_not_in false)).
  { rewrite read_excel_columns, elem_of_map_CStr. by apply list_elem_of_filter. }
  split; [done |]. intros T HT Hname.
  unfold config_table in HT. apply set_index_Some in HT as (k & Hk & ->).
  simpl. assert (CStr h <> CStr "Name") by congruence.
  split; by eapply elem_of_delete_other.
Qed.

End RunFacts.

(** ** The script on concrete inputs *)

Example str_split_windows :
  Py.str_split "\" "C:\repos\FieldNBalance\TestGraphs\WS2.ipynb"
  = ["C:"; "repos"; "FieldNBalance"; "TestGraphs"; "WS2.ipynb"].
Proof. reflexivity. Qed.

Example walk_root_windows :
  walk_root EmptyString
    (Py.str_split "\" "C:\repos\FieldNBalance\TestGraphs\WS2.ipynb")
  = "C:\repos\".
Proof. reflexivity. Qed.

Example str_contains_unnamed :
  Py.str_contains "Unnamed" "UnnamedExtra" = true
  /\ Py.str_contains "Unnamed" "Unnamed: 3" = true
  /\ Py.str_contains "Unnamed" "unnamed" = false
  /\ Py.str_contains "Unnamed" "Depth" = false.
Proof. repeat split; reflexivity. Qed.

Example posix_join_sample :
  OsPath.posix_join "/w" ["TestGraphs"; "Outputs"] = "/w/TestGraphs/Outputs".
Proof. reflexivity. Qed.

Example read_excel_AB :
  read_excel sheet_AB 45 unnamed_not_in false
  = {| index_name := None; index := [CInt 0; CInt 1];
       columns_name := None; columns := [CStr "Name"; CStr "Depth"];
       values := [[CStr "A"; CInt 10]; [CStr "B"; CStr EmptyString]] |}.
Proof. reflexivity. Qed.

(** With the default NaN strings kept, the blank would be lost. *)
Example read_excel_AB_default_na :
  values (read_excel sheet_AB 45 unnamed_not_in true)
  = [[CStr "A"; CInt 10]; [CStr "B"; CNaN]].
Proof. vm_compute. reflexivity. Qed.

Example config_table_AB : config_table sheet_AB = Some table_AB.
Proof. vm_compute. reflexivity. Qed.

Example transpose_AB :
  transpose table_AB
  = {| index_name := None; index := [CStr "Depth"];
       columns_name := Some "Name"; columns := [CStr "A"; CStr "B"];
       values := [[CInt 10; CStr EmptyString]] |}.
Proof. reflexivity. Qed.

Example csv_quoting :
  csv_row (String LF EmptyString) ["a,b"; "c"]
  = String dquote ("a,b" +:+ String dquote ",c")
  /\ csv_row (String LF EmptyString) [EmptyString]
     = String dquote (String dquote EmptyString)
  /\ csv_row (String LF EmptyString) ["Depth"; "10"; EmptyString]
     = "Depth,10,"
  /\ csv_field (String LF EmptyString) (String CR "x") = String CR "x"
  /\ csv_field (String CR (String LF EmptyString)) (String CR "x")
     = String dquote (String CR ("x" +:+ String dquote EmptyString)).
Proof. repeat split; reflexivity. Qed.

Example drop_blank_tail_samples :
  drop_blank_tail [[XText "A"]; [XBlank]; [XNum 0]; [XBlank]; [XText ""]]
  = [[XText "A"]; [XBlank]; [XNum 0]]
  /\ drop_blank_tail [[XBlank]; [XBlank]] = [].
Proof. split; reflexivity. Qed.

(** A row that holds something only in a rejected column is still read,
    so the columns are set aside after the reader has chosen the rows,
    not before. *)
Example rejected_column_keeps_a_row :
  let sh := {| header := ["Name"; "UnnamedExtra"];
               rows := [[XText "A"; XBlank]; [XBlank; XText "note"]] |} in
  length (values (read_excel sh 45 unnamed_not_in false)) = 2
  /\ length (values (read_excel (accepted_columns unnamed_not_in sh) 45
                       unnamed_not_in false)) = 1.
Proof. split; reflexivity. Qed.

Example run_AB :
  fst (run (host := repo_host) ∅ (fs_with sheet_AB) all_writable)
  = Return tt.
Proof. vm_compute. reflexivity. Qed.

(** C3.  On a GitHub Actions runner, where [GITHUB_ACTIONS] is the text
    [true], the test on line 19 is false and the resolver runs the local
    branch: [inPath] and [outPath] stay unbound and [path] is derived from
    the notebook path, not from [GITHUB_WORKSPACE]. *)
Theorem github_actions_true_takes_the_local_branch :
  let st := @fresh frame_pickle runner_env ∅ all_writable in
  ci_test (pk := frame_pickle) st = (Return false, st)
  /\ resolver (host := runner_host) st
     = local_branch (host := runner_host) st
  /\ globals (snd (resolver (host := runner_host) st)) !! "inPath" = None
  /\ globals (snd (resolver (host := runner_host) st)) !! "outPath" = None
  /\ globals (snd (resolver (host := runner_host) st)) !! "path"
     = Some (VStr ("/home/runner/work/FieldNBalance/FieldNBalance/WS2.ipynb\"
                   +:+ "/FieldNBalance/TestComponents/TestSets/Moisture")).
Proof.
  cbv zeta. split; [apply ci_test_false |]. split; [apply resolver_local |].
  repeat split; vm_compute; reflexivity.
Qed.

(** C1 as stated fails on its own scenario: the header row of the CSV is
    [,A,B], not [Name,A,B]. *)
Lemma csv_header_has_no_axis_name :
  files (snd (run (host := repo_host) ∅ (fs_with sheet_AB) all_writable))
    !! csv_file (host := repo_host)
  = Some (Text csv_AB)
  /\ files (snd (run (host := repo_host) ∅ (fs_with sheet_AB) all_writable))
       !! csv_file (host := repo_host)
     <> Some (Text csv_AB_with_axis_name).
Proof. split; vm_compute; [reflexivity | discriminate]. Qed.

(** ** The theorems at work *)

(** On the scenario the CSV holds [,A,B] and [Depth,10,]. *)
Lemma csv_holds_the_transposed_table_AB :
  csv_file (host := repo_host) <> pkl_file (host := repo_host)
  /\ fst (run (host := repo_host) ∅ (fs_with sheet_AB) all_writable) = Return tt
  /\ files (snd (run (host := repo_host) ∅ (fs_with sheet_AB) all_writable))
       !! csv_file (host := repo_host)
     = Some (Text csv_AB).
Proof.
  assert (Hne : csv_file (host := repo_host) <> pkl_file (host := repo_host))
    by (vm_compute; discriminate).
  assert (Hok : fst (run (host := repo_host) ∅ (fs_with sheet_AB) all_writable)
                = Return tt) by (vm_compute; reflexivity).
  split; [exact Hne |]. split; [exact Hok |].
  destruct (csv_holds_the_transposed_table (host := repo_host)
              ∅ (fs_with sheet_AB) all_writable Hne Hok)
    as (sh & T & Hfs & HT & _ & Hcsv & _).
  vm_compute in Hfs. injection Hfs as Hsh. subst sh.
  vm_compute in HT. injection HT as HT'. subst T.
  rewrite Hcsv. vm_compute. reflexivity.
Defined.

(** C4 as stated fails on a worksheet of 45 rows whose last row is
    blank: 44 rows are loaded, not all 45. *)
Lemma blank_last_row_is_not_loaded :
  length (rows sheet_45_blank_last) = 45
  /\ fst (run (host := repo_host) ∅ (fs_with sheet_45_blank_last) all_writable)
     = Return tt
  /\ length (values (read_excel sheet_45_blank_last 45 unnamed_not_in false))
     = 44
  /\ config_table sheet_45_blank_last = config_table (sheet_of_rows 44).
Proof. repeat split; vm_compute; reflexivity. Qed.

(** A worksheet of 46 rows: 45 names are loaded, and the snapshot is the
    one of the worksheet cut after row 45. *)
Lemma loader_reads_at_most_45_rows_of_46 :
  fs_with (sheet_of_rows 46) !! xlsx_file (host := repo_host)
  = Some (Xlsx (sheet_of_rows 46))
  /\ fst (run (host := repo_host) ∅ (fs_with (sheet_of_rows 46)) all_writable)
     = Return tt
  /\ exists T,
       config_table (sheet_of_rows 46) = Some T
       /\ config_table (sheet_of_rows 45) = Some T
       /\ length (index T) = 45
       /\ files (snd (run (host := repo_host) ∅
                        (fs_with (sheet_of_rows 46)) all_writable))
            !! pkl_file (host := repo_host)
          = Some (Pickled (pickle_dumps T)).
Proof.
  assert (Hfs : fs_with (sheet_of_rows 46) !! xlsx_file (host := repo_host)
                = Some (Xlsx (sheet_of_rows 46))) by (vm_compute; reflexivity).
  assert (Hok : fst (run (host := repo_host) ∅
                       (fs_with (sheet_of_rows 46)) all_writable)
                = Return tt) by (vm_compute; reflexivity).
  split; [exact Hfs |]. split; [exact Hok |].
  destruct (loader_reads_at_most_45_rows (host := repo_host)
              ∅ (fs_with (sheet_of_rows 46)) all_writable
              (sheet_of_rows 46) Hfs Hok)
    as (_ & _ & _ & T & HT & HT45 & Hlen & _ & _ & _ & _ & _ & Hpkl).
  exists T. split; [exact HT |]. split; [exact HT45 |].
  split; [| exact Hpkl]. rewrite Hlen. vm_compute. reflexivity.
Defined.

(** The column [UnnamedExtra] of [sheet_extra] is dropped: the table is
    the one of the scenario, and so is the CSV. *)
Lemma unnamed_columns_are_dropped_UnnamedExtra :
  "UnnamedExtra" = EmptyString +:+ ("Unnamed" +:+ "Extra")
  /\ ("UnnamedExtra" ∈ header sheet_extra)
  /\ (CStr "UnnamedExtra"
        ∉ columns (read_excel sheet_extra 45 unnamed_not_in false))
  /\ ("UnnamedExtra" ∉ header (accepted_columns unnamed_not_in sheet_extra))
  /\ config_table sheet_extra = Some table_AB
  /\ files (snd (run (host := repo_host) ∅ (fs_with sheet_extra) all_writable))
       !! csv_file (host := repo_host)
     = Some (Text csv_AB).
Proof.
  assert (Hh : "UnnamedExtra" = EmptyString +:+ ("Unnamed" +:+ "Extra"))
    by reflexivity.
  split; [exact Hh |].
  split; [apply (bool_decide_unpack _); vm_compute; exact I |].
  destruct (unnamed_columns_are_dropped (host := repo_host)
              (pk := frame_pickle) "UnnamedExtra" EmptyString "Extra" Hh)
    as [Hload Hrun].
  destruct (Hload sheet_extra) as (Hcol & Hhd & _).
  split; [exact Hcol |]. split; [exact Hhd |].
  assert (Hok : fst (run (host := repo_host) ∅ (fs_with sheet_extra)
                       all_writable) = Return tt) by (vm_compute; reflexivity).
  destruct (Hrun ∅ (fs_with sheet_extra) all_writable Hok)
    as (sh & T & Hfs & HT & _ & _ & _ & Hfiles).
  vm_compute in Hfs. injection Hfs as Hsh. subst sh.
  split; [vm_compute; reflexivity |].
  vm_compute in HT. injection HT as HT'. subst T.
  rewrite Hfiles. vm_compute. reflexivity.
Defined.



(** C7 as stated fails on a workbook without [Name] whose header has a
    number in it: the run stops in the load step with [TypeError], not in
    the indexing step, and [Configs] is never bound. *)
Lemma number_in_header_fails_in_the_load :
  fs_year_headed !! xlsx_file (host := repo_host)
  = Some (XlsxNumberHeaded ["Site"] 2020 [] [[XText "A"; XNum 10]])
  /\ (LText "Name" ∉ [LText "Site"; LNum 2020])
  /\ fst (run (host := repo_host) ∅ fs_year_headed all_writable)
     = Raise TypeError
  /\ fst (run (host := repo_host) ∅ fs_year_headed all_writable)
     <> Raise (KeyError "Name")
  /\ globals (snd (run (host := repo_host) ∅ fs_year_headed all_writable))
       !! "Configs" = None.
Proof.
  split; [vm_compute; reflexivity |].
  split; [apply (bool_decide_unpack _); vm_compute; exact I |].
  split; [vm_compute; reflexivity |].
  split; [vm_compute; discriminate | vm_compute; reflexivity].
Qed.

(** A worksheet without [Name]: the run stops at line 39. *)
Lemma missing_name_column_fails_on_sheet_no_name :
  fs_with sheet_no_name !! xlsx_file (host := repo_host)
  = Some (Xlsx sheet_no_name)
  /\ worksheet (Xlsx (pk := frame_pickle) sheet_no_name)
     = Some ([LText "Site"; LText "Depth"], rows sheet_no_name)
  /\ (LText "Name" ∉ [LText "Site"; LText "Depth"])
  /\ fst (run (host := repo_host) ∅ (fs_with sheet_no_name) all_writable)
     = Raise (KeyError "Name")
  /\ files (snd (run (host := repo_host) ∅ (fs_with sheet_no_name) all_writable))
     = fs_with sheet_no_name.
Proof.
  assert (Hfs : fs_with sheet_no_name !! xlsx_file (host := repo_host)
                = Some (Xlsx sheet_no_name)) by (vm_compute; reflexivity).
  assert (Hws : worksheet (Xlsx (pk := frame_pickle) sheet_no_name)
                = Some ([LText "Site"; LText "Depth"], rows sheet_no_name))
    by reflexivity.
  assert (Hno : LText "Name" ∉ [LText "Site"; LText "Depth"])
    by (apply (bool_decide_unpack _); vm_compute; exact I).
  split; [exact Hfs |]. split; [exact Hws |]. split; [exact Hno |].
  destruct (missing_name_column_fails_before_writing (host := repo_host)
              ∅ (fs_with sheet_no_name) all_writable _ _ _ Hfs Hws Hno)
    as (Hfiles & _ & _ & Hraise & _).
  split; [exact Hraise | exact Hfiles].
Defined.

(** On [repo_host] the notebook path has a single fragment, which is not
    the project name: the root is the whole path and a backslash. *)
Lemma project_name_absent_on_repo_host :
  ("FieldNBalance" ∉ notebook_fragments (host := repo_host))
  /\ local_root (host := repo_host) = "/home/u/repo/WS2.ipynb\"
  /\ forall env fs w,
       head (trace (snd (run (host := repo_host) (pk := frame_pickle) env fs w)))
       = Some (EvOpenRead (moisture_dir +:+ "/FieldConfigs.xlsx")).
Proof.
  assert (Hno : "FieldNBalance" ∉ notebook_fragments (host := repo_host))
    by (apply (bool_decide_unpack _); vm_compute; exact I).
  split; [exact Hno |].
  destruct (project_name_absent_no_error (host := repo_host)
              (pk := frame_pickle) Hno)
    as (_ & Hroot & _ & Hhead).
  split; [exact Hroot | exact Hhead].
Defined.

(** ** More theorems at work *)

(** On [checkout_host] the loop stops at the second fragment. *)
Lemma root_on_checkout_host :
  notebook_fragments (host := checkout_host)
  = ["/home/u"] ++ "FieldNBalance" :: ["TestGraphs"; "MakeConfigs/WS2.ipynb"]
  /\ ("FieldNBalance" ∉ ["/home/u"])
  /\ forall st : state (pk := frame_pickle), exists g,
       resolver (host := checkout_host) st = (Return tt, with_globals g st)
       /\ g !! "root" = Some (VStr "/home/u\")
       /\ g !! "path"
          = Some (VStr ("/home/u\"
                        +:+ "/FieldNBalance/TestComponents/TestSets/Moisture")).
Proof.
  assert (Hfrags : notebook_fragments (host := checkout_host)
    = ["/home/u"] ++ "FieldNBalance" :: ["TestGraphs"; "MakeConfigs/WS2.ipynb"])
    by (vm_compute; reflexivity).
  assert (Hno : "FieldNBalance" ∉ ["/home/u"])
    by (apply (bool_decide_unpack _); vm_compute; exact I).
  split; [exact Hfrags |]. split; [exact Hno |].
  exact (root_is_what_precedes_project_name (host := checkout_host)
           (pk := frame_pickle) ["/home/u"]
           ["TestGraphs"; "MakeConfigs/WS2.ipynb"] Hfrags Hno).
Defined.

(** An empty file system: the run stops at line 33. *)
Lemma missing_spreadsheet_on_empty_fs :
  (∅ : gmap string (@file frame_pickle)) !! xlsx_file (host := repo_host) = None
  /\ fst (run (host := repo_host) (pk := frame_pickle) ∅ ∅ all_writable)
     = Raise (FileNotFoundError (moisture_dir +:+ "/FieldConfigs.xlsx"))
  /\ files (snd (run (host := repo_host) (pk := frame_pickle) ∅ ∅ all_writable))
     = ∅.
Proof.
  assert (Hfs : (∅ : gmap string (@file frame_pickle))
                  !! xlsx_file (host := repo_host) = None) by reflexivity.
  split; [exact Hfs |].
  destruct (missing_spreadsheet_raises_before_writing (host := repo_host)
              ∅ ∅ all_writable Hfs) as (Hraise & Hfiles & _).
  split; [exact Hraise | exact Hfiles].
Defined.

(** The scenario on a file system that refuses every write. *)
Lemma refused_csv_on_read_only_fs :
  fs_with sheet_AB !! xlsx_file (host := repo_host) = Some (Xlsx sheet_AB)
  /\ ("Name" ∈ header sheet_AB)
  /\ read_only (csv_file (host := repo_host)) = false
  /\ fst (run (host := repo_host) ∅ (fs_with sheet_AB) read_only)
     = Raise (PermissionError (moisture_dir +:+ "/FieldConfigs.csv"))
  /\ files (snd (run (host := repo_host) ∅ (fs_with sheet_AB) read_only))
     = fs_with sheet_AB.
Proof.
  assert (Hfs : fs_with sheet_AB !! xlsx_file (host := repo_host)
                = Some (Xlsx sheet_AB)) by (vm_compute; reflexivity).
  assert (Hname : "Name" ∈ header sheet_AB)
    by (apply (bool_decide_unpack _); vm_compute; exact I).
  assert (Hw : read_only (csv_file (host := repo_host)) = false)
    by reflexivity.
  split; [exact Hfs |]. split; [exact Hname |]. split; [exact Hw |].
  destruct (refused_csv_stops_the_run (host := repo_host)
              ∅ (fs_with sheet_AB) read_only sheet_AB Hfs Hname Hw)
    as (Hraise & Hfiles & _).
  split; [exact Hraise | exact Hfiles].
Defined.

(** The scenario where only the CSV may be written: the CSV is there,
    the snapshot is not. *)
Lemma refused_snapshot_on_scenario :
  fs_with sheet_AB !! xlsx_file (host := repo_host) = Some (Xlsx sheet_AB)
  /\ config_table sheet_AB = Some table_AB
  /\ only_csv_writable (csv_file (host := repo_host)) = true
  /\ only_csv_writable (pkl_file (host := repo_host)) = false
  /\ fst (run (host := repo_host) ∅ (fs_with sheet_AB) only_csv_writable)
     = Raise (PermissionError (moisture_dir +:+ "/FieldConfigs.pkl"))
  /\ files (snd (run (host := repo_host) ∅ (fs_with sheet_AB)
                  only_csv_writable))
       !! csv_file (host := repo_host)
     = Some (Text csv_AB)
  /\ files (snd (run (host := repo_host) ∅ (fs_with sheet_AB)
                  only_csv_writable))
       !! pkl_file (host := repo_host)
     = None.
Proof.
  assert (Hfs : fs_with sheet_AB !! xlsx_file (host := repo_host)
                = Some (Xlsx sheet_AB)) by (vm_compute; reflexivity).
  assert (HT : config_table sheet_AB = Some table_AB)
    by (vm_compute; reflexivity).
  assert (Hc : only_csv_writable (csv_file (host := repo_host)) = true)
    by (vm_compute; reflexivity).
  assert (Hp : only_csv_writable (pkl_file (host := repo_host)) = false)
    by (vm_compute; reflexivity).
  split; [exact Hfs |]. split; [exact HT |]. split; [exact Hc |].
  split; [exact Hp |].
  destruct (refused_snapshot_leaves_the_csv (host := repo_host)
              ∅ (fs_with sheet_AB) only_csv_writable sheet_AB table_AB
              Hfs HT Hc Hp) as (Hraise & Hfiles & _).
  split; [exact Hraise |]. rewrite Hfiles.
  split; vm_compute; reflexivity.
Defined.

(** The scenario run twice. *)
Lemma second_run_on_scenario :
  xlsx_file (host := repo_host) <> csv_file (host := repo_host)
  /\ xlsx_file (host := repo_host) <> pkl_file (host := repo_host)
  /\ fst (run (host := repo_host) ∅ (fs_with sheet_AB) all_writable) = Return tt
  /\ fst (run (host := repo_host) ∅
            (files (snd (run (host := repo_host) ∅ (fs_with sheet_AB)
                           all_writable)))
            all_writable)
     = Return tt
  /\ files (snd (run (host := repo_host) ∅
                  (files (snd (run (host := repo_host) ∅ (fs_with sheet_AB)
                                 all_writable)))
                  all_writable))
     = files (snd (run (host := repo_host) ∅ (fs_with sheet_AB) all_writable)).
Proof.
  assert (H1 : xlsx_file (host := repo_host) <> csv_file (host := repo_host))
    by (vm_compute; discriminate).
  assert (H2 : xlsx_file (host := repo_host) <> pkl_file (host := repo_host))
    by (vm_compute; discriminate).
  assert (Hok : fst (run (host := repo_host) ∅ (fs_with sheet_AB) all_writable)
                = Return tt) by (vm_compute; reflexivity).
  split; [exact H1 |]. split; [exact H2 |]. split; [exact Hok |].
  exact (second_run_changes_nothing (host := repo_host)
           ∅ (fs_with sheet_AB) all_writable H1 H2 Hok).
Defined.

(** [sheet_extra] has two accepted columns and two rows: the CSV has two
    records of three fields. *)
Lemma csv_shape_of_sheet_extra :
  fst (run (host := repo_host) ∅ (fs_with sheet_extra) all_writable) = Return tt
  /\ exists T,
       config_table sheet_extra = Some T
       /\ length (csv_records (transpose T)) = 2
       /\ Forall (fun rec => length rec = 3) (csv_records (transpose T)).
Proof.
  assert (Hok : fst (run (host := repo_host) ∅ (fs_with sheet_extra)
                       all_writable) = Return tt) by (vm_compute; reflexivity).
  split; [exact Hok |].
  destruct (csv_shape (host := repo_host) ∅ (fs_with sheet_extra)
              all_writable Hok)
    as (sh & T & Hfs & HT & _ & Hlen & Hall & _).
  vm_compute in Hfs. injection Hfs as Hsh. subst sh.
  exists T. split; [exact HT |]. split; [exact Hlen | exact Hall].
Defined.

(** One more file next to the scenario changes neither output. *)
Lemma other_files_do_not_matter :
  fs_with sheet_AB !! xlsx_file (host := repo_host)
  = fs_with_notes sheet_AB !! xlsx_file (host := repo_host)
  /\ fst (run (host := repo_host) ∅ (fs_with sheet_AB) all_writable)
     = fst (run (host := repo_host) ∅ (fs_with_notes sheet_AB) all_writable)
  /\ files (snd (run (host := repo_host) ∅ (fs_with sheet_AB) all_writable))
       !! csv_file (host := repo_host)
     = files (snd (run (host := repo_host) ∅ (fs_with_notes sheet_AB)
                     all_writable))
         !! csv_file (host := repo_host).
Proof.
  assert (Hsame : fs_with sheet_AB !! xlsx_file (host := repo_host)
                  = fs_with_notes sheet_AB !! xlsx_file (host := repo_host))
    by (vm_compute; reflexivity).
  assert (Hok : fst (run (host := repo_host) ∅ (fs_with sheet_AB) all_writable)
                = Return tt) by (vm_compute; reflexivity).
  split; [exact Hsame |].
  destruct (run_reads_only_the_spreadsheet (host := repo_host)
              ∅ (fs_with sheet_AB) (fs_with_notes sheet_AB) all_writable Hsame)
    as (Hfst & _ & _ & Hout).
  split; [exact Hfst |]. exact (proj1 (Hout Hok)).
Defined.

(** [Depth] is kept next to the dropped columns of [sheet_extra]. *)
Lemma depth_is_kept_in_sheet_extra :
  ("Depth" ∈ header sheet_extra)
  /\ (forall pre post, "Depth" <> pre +:+ ("Unnamed" +:+ post))
  /\ (CStr "Depth" ∈ columns (read_excel sheet_extra 45 unnamed_not_in false))
  /\ (CStr "Depth" ∈ index (transpose table_AB)).
Proof.
  assert (Hin : "Depth" ∈ header sheet_extra)
    by (apply (bool_decide_unpack _); vm_compute; exact I).
  assert (Hno : forall pre post, "Depth" <> pre +:+ ("Unnamed" +:+ post)).
  { intros pre post Heq.
    assert (Hc : Py.str_contains "Unnamed" "Depth" = true)
      by (apply str_contains_spec; exists pre, post; exact Heq).
    vm_compute in Hc. discriminate Hc. }
  split; [exact Hin |]. split; [exact Hno |].
  destruct (other_columns_are_kept "Depth" sheet_extra Hin Hno)
    as [Hload HT].
  split; [exact Hload |].
  assert (Hconf : config_table sheet_extra = Some table_AB)
    by (vm_compute; reflexivity).
  assert (Hname : "Depth" <> "Name") by discriminate.
  exact (proj2 (HT table_AB Hconf Hname)).
Defined.

(** On the scenario the snapshot is the encoding of the table indexed by
    name. *)
Lemma snapshot_on_scenario :
  fst (run (host := repo_host) ∅ (fs_with sheet_AB) all_writable) = Return tt
  /\ files (snd (run (host := repo_host) ∅ (fs_with sheet_AB) all_writable))
       !! pkl_file (host := repo_host)
     = Some (Pickled (pk := frame_pickle) table_AB).
Proof.
  assert (Hok : fst (run (host := repo_host) ∅ (fs_with sheet_AB) all_writable)
                = Return tt) by (vm_compute; reflexivity).
  split; [exact Hok |].
  destruct (snapshot_is_of_the_indexed_table (host := repo_host)
              ∅ (fs_with sheet_AB) all_writable Hok)
    as (sh & T & Hfs & HT & Hpkl & _).
  vm_compute in Hfs. injection Hfs as Hsh. subst sh.
  vm_compute in HT. injection HT as HT'. subst T. exact Hpkl.
Defined.
